(** * go-multipart-encoder: [Encode] and [getExtensionFromContent]

    A shallow embedding of [src/multipart.go].  The Go values that [Encode]
    inspects through package [reflect] are an inductive type; the
    [mime/multipart] writer is a small state machine over the list of parts
    written so far; what belongs to the host or to library code that is not
    modelled byte by byte (the MIME sniffer and registry, [json.Marshal], the
    float formatter, the random boundary, write faults of the destination) is
    gathered in the class [Host]. *)

From Stdlib Require Import String Ascii List ZArith NArith Bool.
From Stdlib Require Import DecimalString DecimalZ DecimalPos DecimalN.
Import ListNotations.
Open Scope string_scope.
Local Set Warnings "-register-all".

(** ** Errors *)

(** A Go [error] value: a plain message ([errors.New], [fmt.Errorf] without
    [%w]) or a message wrapping another error ([fmt.Errorf] with [%w]). *)
Inductive error : Type :=
| errorString (s : string)
| wrapError (msg : string) (err : error).

Definition Error (e : error) : string :=
  match e with
  | errorString s => s
  | wrapError msg _ => msg
  end.

(** [fmt.Errorf(prefix + "%w", err)]. *)
Definition Errorf_w (prefix : string) (err : error) : error :=
  wrapError (prefix ++ Error err) err.

(** ** Package reflect *)

Module reflect.

Inductive Kind : Type :=
| Invalid | Bool
| Int | Int8 | Int16 | Int32 | Int64
| Uint | Uint8 | Uint16 | Uint32 | Uint64 | Uintptr
| Float32 | Float64 | Complex64 | Complex128
| Array | Chan | Func | Interface | Map | Pointer | Slice | String | Struct
| UnsafePointer.

Definition Kind_eqb (a b : Kind) : bool :=
  match a, b with
  | Invalid, Invalid | Bool, Bool
  | Int, Int | Int8, Int8 | Int16, Int16 | Int32, Int32 | Int64, Int64
  | Uint, Uint | Uint8, Uint8 | Uint16, Uint16 | Uint32, Uint32
  | Uint64, Uint64 | Uintptr, Uintptr
  | Float32, Float32 | Float64, Float64
  | Complex64, Complex64 | Complex128, Complex128
  | Array, Array | Chan, Chan | Func, Func | Interface, Interface
  | Map, Map | Pointer, Pointer | Slice, Slice | String, String
  | Struct, Struct | UnsafePointer, UnsafePointer => true
  | _, _ => false
  end.

Inductive IntKind : Type := KInt | KInt8 | KInt16 | KInt32 | KInt64.
Inductive UintKind : Type := KUint | KUint8 | KUint16 | KUint32 | KUint64.
Inductive FloatKind : Type := KFloat32 | KFloat64.

(** Kinds whose values [Encode] never looks into. *)
Inductive OpaqueKind : Type :=
| KUintptr | KComplex64 | KComplex128 | KChan | KFunc | KInterface | KMap
| KUnsafePointer.

(** [reflect.StructTag] in its conventional form, a sequence of
    [key:"value"] pairs, kept in the order written. *)
Definition StructTag : Type := list (string * string).

(** [reflect.StructField]: [PkgPath] is empty exactly for exported fields. *)
Record StructField : Type := {
  Name : string;
  PkgPath : string;
  Tag : StructTag
}.

(** A [reflect.Value].  Integers carry the value that [Int()] and [Uint()]
    return, a float the IEEE-754 binary64 bit pattern of what [Float()]
    returns; a slice carries the kind of its element type and [None] when it
    is nil; a pointer carries [None] when it is nil. *)
Inductive Value : Type :=
| VInvalid
| VBool (b : bool)
| VInt (k : IntKind) (i : Z)
| VUint (k : UintKind) (u : N)
| VFloat (k : FloatKind) (bits : Z)
| VString (s : string)
| VSlice (elem : Kind) (data : option (list Value))
| VArray (elem : Kind) (data : list Value)
| VStruct (fields : list (StructField * Value))
| VPointer (target : option Value)
| VOpaque (k : OpaqueKind).

Definition IntKind_Kind (k : IntKind) : Kind :=
  match k with
  | KInt => Int | KInt8 => Int8 | KInt16 => Int16 | KInt32 => Int32
  | KInt64 => Int64
  end.

Definition UintKind_Kind (k : UintKind) : Kind :=
  match k with
  | KUint => Uint | KUint8 => Uint8 | KUint16 => Uint16 | KUint32 => Uint32
  | KUint64 => Uint64
  end.

Definition FloatKind_Kind (k : FloatKind) : Kind :=
  match k with KFloat32 => Float32 | KFloat64 => Float64 end.

Definition OpaqueKind_Kind (k : OpaqueKind) : Kind :=
  match k with
  | KUintptr => Uintptr | KComplex64 => Complex64 | KComplex128 => Complex128
  | KChan => Chan | KFunc => Func | KInterface => Interface | KMap => Map
  | KUnsafePointer => UnsafePointer
  end.

(** [v.Kind()] *)
Definition Value_Kind (v : Value) : Kind :=
  match v with
  | VInvalid => Invalid
  | VBool _ => Bool
  | VInt k _ => IntKind_Kind k
  | VUint k _ => UintKind_Kind k
  | VFloat k _ => FloatKind_Kind k
  | VString _ => String
  | VSlice _ _ => Slice
  | VArray _ _ => Array
  | VStruct _ => Struct
  | VPointer _ => Pointer
  | VOpaque k => OpaqueKind_Kind k
  end.

(** [v.Elem()] on a pointer: the zero Value (kind Invalid) for a nil one. *)
Definition Value_Elem (v : Value) : Value :=
  match v with
  | VPointer (Some t) => t
  | _ => VInvalid
  end.

(** [v.String()], [v.Int()], [v.Uint()], [v.Float()], [v.Bool()] on a value
    of the matching kind. *)
Definition Value_String (v : Value) : string :=
  match v with VString s => s | _ => "" end.

Definition Value_Int (v : Value) : Z :=
  match v with VInt _ i => i | _ => 0%Z end.

Definition Value_Uint (v : Value) : N :=
  match v with VUint _ u => u | _ => 0%N end.

Definition Value_Float (v : Value) : Z :=
  match v with VFloat _ bits => bits | _ => 0%Z end.

Definition Value_Bool (v : Value) : bool :=
  match v with VBool b => b | _ => false end.

(** [v.Type().Elem().Kind()] on a slice or array. *)
Definition Value_ElemKind (v : Value) : Kind :=
  match v with
  | VSlice elem _ | VArray elem _ => elem
  | _ => Invalid
  end.

(** [v.IsNil()] on a slice or a pointer. *)
Definition Value_IsNil (v : Value) : bool :=
  match v with
  | VSlice _ None => true
  | VPointer None => true
  | _ => false
  end.

(** The elements [v.Index(0)], ..., [v.Index(v.Len()-1)] of a slice or an
    array. *)
Definition Value_Elems (v : Value) : list Value :=
  match v with
  | VSlice _ (Some elems) => elems
  | VArray _ elems => elems
  | _ => []
  end.

(** [v.Bytes()] on a slice whose elements have kind Uint8. *)
Definition Value_Bytes (v : Value) : string :=
  string_of_list_ascii
    (map (fun e => ascii_of_N (Value_Uint e)) (Value_Elems v)).

(** The fields [(t.Field(i), v.Field(i))] for [i] from 0 to
    [v.NumField()-1], in declaration order. *)
Definition Value_Fields (v : Value) : list (StructField * Value) :=
  match v with
  | VStruct fields => fields
  | _ => []
  end.

(** [tag.Get(key)]: the value of the first pair with that key, the empty
    string when there is none. *)
Fixpoint Get (tag : StructTag) (key : string) : string :=
  match tag with
  | [] => ""
  | (k, v) :: rest => if (k =? key)%string then v else Get rest key
  end.

(** [f.IsExported()] *)
Definition IsExported (f : StructField) : bool := (PkgPath f =? "")%string.

End reflect.

(** ** Package strconv *)

Module strconv.

(** [strconv.FormatInt(i, 10)] *)
Definition FormatInt (i : Z) : string := NilZero.string_of_int (Z.to_int i).

(** [strconv.FormatUint(u, 10)] *)
Definition FormatUint (u : N) : string := NilZero.string_of_uint (N.to_uint u).

(** [strconv.FormatBool(b)] *)
Definition FormatBool (b : bool) : string := if b then "true" else "false".

(** Reading a decimal numeral back, to say what [FormatInt] produces. *)
Definition ParseInt (s : string) : option Z :=
  option_map Z.of_int (NilZero.int_of_string s).

End strconv.

(** ** The host and the libraries taken as given *)

Class Host : Type := {
  (** the boundary [multipart.NewWriter] draws at random *)
  randomBoundary : string;
  (** [write_fault n] is the error, if any, that the [n]-th [Write] on the
      destination of the multipart writer reports.  [Encode] writes into a
      [bytes.Buffer], whose [Write] always returns a nil error: that is the
      schedule with no fault.  Other schedules stand for an arbitrary
      [io.Writer] and make the error branches of [Encode] reachable. *)
  write_fault : nat -> option error;
  (** [http.DetectContentType] *)
  DetectContentType : string -> string;
  (** [mime.ExtensionsByType], over the MIME registry of the host *)
  ExtensionsByType : string -> list string * option error;
  (** [json.Marshal], for the calls that return; a panic raised inside a
      [MarshalJSON] or [MarshalText] method of a field is not modelled *)
  Marshal : reflect.Value -> string * option error;
  (** [strconv.FormatFloat(x, 'f', -1, 64)], on the bits of [x] *)
  FormatFloat : Z -> string;
  (** [strings.ToLower] *)
  ToLower : string -> string
}.

(** A destination that never reports a write error, as [bytes.Buffer]. *)
Definition reliable (H : Host) : Prop := forall n, write_fault n = None.

(** ** Package mime/multipart: the writer *)

(** One part of the body: a form field has no filename, a file part has one. *)
Record Part : Type := {
  part_name : string;
  part_filename : option string;
  part_body : string
}.

(** The destination buffer, read as the parts written into it, whether the
    closing boundary was written, and the number of [Write] calls so far. *)
Record Buffer : Type := {
  parts : list Part;
  terminated : bool;
  writes : nat
}.

(** What one [Write] on the destination carries: the boundary line and
    headers opening a part, bytes of the body of the open part, or the
    closing boundary. *)
Inductive chunk : Type :=
| PartHeader (name : string) (filename : option string)
| PartData (d : string)
| Terminator.

Fixpoint append_body (ps : list Part) (d : string) : list Part :=
  match ps with
  | [] => []
  | [p] => [{| part_name := part_name p; part_filename := part_filename p;
               part_body := part_body p ++ d |}]
  | p :: rest => p :: append_body rest d
  end.

Definition Buffer_store (b : Buffer) (c : chunk) : Buffer :=
  match c with
  | PartHeader n f =>
      {| parts := parts b ++ [{| part_name := n; part_filename := f;
                                 part_body := "" |}];
         terminated := terminated b; writes := S (writes b) |}
  | PartData d =>
      {| parts := append_body (parts b) d;
         terminated := terminated b; writes := S (writes b) |}
  | Terminator =>
      {| parts := parts b; terminated := true; writes := S (writes b) |}
  end.

(** The state of a [multipart.part]: [closed], and the sticky write error
    [we]. *)
Record part : Type := {
  closed : bool;
  we : option error
}.

(** [multipart.Writer]: destination, boundary, and the part created last. *)
Record Writer : Type := {
  w : Buffer;
  boundary : string;
  lastpart : option part
}.

Section MultipartWriter.
Context {H : Host}.

(** A [Write] on the destination.  A faulty write stores nothing. *)
Definition Buffer_Write (b : Buffer) (c : chunk) : Buffer * option error :=
  match write_fault (writes b) with
  | Some e =>
      ({| parts := parts b; terminated := terminated b;
          writes := S (writes b) |}, Some e)
  | None => (Buffer_store b c, None)
  end.

(** [multipart.NewWriter(&b)] on a fresh buffer. *)
Definition NewWriter : Writer :=
  {| w := {| parts := []; terminated := false; writes := 0 |};
     boundary := randomBoundary;
     lastpart := None |}.

(** [w.CreatePart(header)]: close the previous part and report its sticky
    error if it has one; otherwise write the boundary line and the headers.
    Only when that write succeeds does the new part become [lastpart]; it is
    the [io.Writer] handed back. *)
Definition CreatePart (mw : Writer) (name : string) (filename : option string)
  : Writer * option error :=
  let mw1 :=
    match lastpart mw with
    | Some p => {| w := w mw; boundary := boundary mw;
                   lastpart := Some {| closed := true; we := we p |} |}
    | None => mw
    end in
  match lastpart mw1 with
  | Some {| closed := _; we := Some e |} => (mw1, Some e)
  | _ =>
      let '(b, err) := Buffer_Write (w mw1) (PartHeader name filename) in
      match err with
      | Some e => ({| w := b; boundary := boundary mw1;
                      lastpart := lastpart mw1 |}, Some e)
      | None => ({| w := b; boundary := boundary mw1;
                    lastpart := Some {| closed := false; we := None |} |},
                 None)
      end
  end.

(** [w.CreateFormField(fieldname)] *)
Definition CreateFormField (mw : Writer) (fieldname : string)
  : Writer * option error :=
  CreatePart mw fieldname None.

(** [w.CreateFormFile(fieldname, filename)] *)
Definition CreateFormFile (mw : Writer) (fieldname filename : string)
  : Writer * option error :=
  CreatePart mw fieldname (Some filename).

(** [fw.Write(d)] on the part created last. *)
Definition part_Write (mw : Writer) (d : string) : Writer * option error :=
  match lastpart mw with
  | Some {| closed := false; we := e0 |} =>
      let '(b, err) := Buffer_Write (w mw) (PartData d) in
      ({| w := b; boundary := boundary mw;
          lastpart := Some {| closed := false;
                              we := match err with
                                    | Some e => Some e
                                    | None => e0
                                    end |} |}, err)
  | _ => (mw, Some (errorString "multipart: can't write to finished part"))
  end.

(** [w.Close()] *)
Definition Close (mw : Writer) : Writer * option error :=
  match lastpart mw with
  | Some {| closed := _; we := Some e |} =>
      ({| w := w mw; boundary := boundary mw;
          lastpart := Some {| closed := true; we := Some e |} |}, Some e)
  | _ =>
      let '(b, err) := Buffer_Write (w mw) Terminator in
      ({| w := b; boundary := boundary mw; lastpart := None |}, err)
  end.

(** [w.FormDataContentType()], for a boundary that needs no quoting. *)
Definition FormDataContentType (mw : Writer) : string :=
  "multipart/form-data; boundary=" ++ boundary mw.

End MultipartWriter.

(** ** The encoder *)

(** What a call of [Encode] does: return its three results, or panic. *)
Inductive Result : Type :=
| Return (buf : option Buffer) (contentType : string) (err : option error)
| Panic (msg : string).

(** The body of the field loop for one field: go on to the error check with
    the writer and the value of [err], or panic. *)
Inductive FieldResult : Type :=
| Checked (mw : Writer) (err : option error)
| FieldPanic (msg : string).

(** The field loop: fall through to [w.Close()], or leave [Encode]. *)
Inductive Flow : Type :=
| Fallthrough (mw : Writer)
| Leave (r : Result).

(** DefaultFileExtension is used when a file's extension cannot be
    detected. *)
Definition DefaultFileExtension : string := "".

Section Encoder.
Context {H : Host}.

Definition getExtensionFromContent (data : string) : string :=
  let t := DetectContentType data in
  let '(s, err) := ExtensionsByType t in
  match err, s with
  | Some _, _ => ""
  | None, [] => ""
  | None, s0 :: _ => if (s0 =? ".jpe")%string then ".jpg" else s0
  end.

(** [fw, err = w.CreateFormField(fieldName)] followed by
    [if err == nil { _, err = fw.Write(value) }]. *)
Definition writeFormField (mw : Writer) (fieldName value : string)
  : Writer * option error :=
  let '(mw1, err) := CreateFormField mw fieldName in
  match err with
  | None => part_Write mw1 value
  | Some _ => (mw1, err)
  end.

(** The same with [w.CreateFormFile(fieldName, filename)]. *)
Definition writeFormFile (mw : Writer) (fieldName filename data : string)
  : Writer * option error :=
  let '(mw1, err) := CreateFormFile mw fieldName filename in
  match err with
  | None => part_Write mw1 data
  | Some _ => (mw1, err)
  end.

(** Lines 115-128: the loop over the elements of a slice.  [err] is assigned
    afresh by every [CreateFormField] and is not tested between elements. *)
Fixpoint encodeElems (mw : Writer) (fieldName : string)
    (elems : list reflect.Value) (err : option error)
  : Writer * option error :=
  match elems with
  | [] => (mw, err)
  | elem :: rest =>
      let '(mw1, err1) := CreateFormField mw fieldName in
      let '(mw2, err2) :=
        match err1 with
        | None =>
            match reflect.Value_Kind elem with
            | reflect.String =>
                part_Write mw1 (reflect.Value_String elem)
            | reflect.Int | reflect.Int8 | reflect.Int16 | reflect.Int32
            | reflect.Int64 =>
                part_Write mw1 (strconv.FormatInt (reflect.Value_Int elem))
            | reflect.Uint | reflect.Uint8 | reflect.Uint16 | reflect.Uint32
            | reflect.Uint64 =>
                part_Write mw1 (strconv.FormatUint (reflect.Value_Uint elem))
            | _ => (mw1, err1)
            end
        | Some _ => (mw1, err1)
        end in
      encodeElems mw2 fieldName rest err2
  end.

(** Lines 53-56: the name under which a field is written. *)
Definition fieldName (fieldType : reflect.StructField) : string :=
  let n := reflect.Get (reflect.Tag fieldType) "form" in
  if (n =? "")%string then ToLower (reflect.Name fieldType) else n.

(** Lines 100-107: the filename of a file part. *)
Definition fileName (fieldType : reflect.StructField) (field : reflect.Value)
  : string :=
  let filename := reflect.Get (reflect.Tag fieldType) "filename" in
  if (filename =? "")%string then
    let ext := getExtensionFromContent (reflect.Value_Bytes field) in
    let ext := if (ext =? "")%string then DefaultFileExtension else ext in
    fieldName fieldType ++ ext
  else filename.

(** Lines 50-140: the body of the field loop up to the error check. *)
Definition encodeField (mw : Writer) (fieldType : reflect.StructField)
    (field : reflect.Value) : FieldResult :=
  if (fieldName fieldType =? "-")%string then Checked mw None (* continue *)
  else
    match reflect.Value_Kind field with
    | reflect.String =>
        if (reflect.Value_String field =? "")%string then Checked mw None
        else
          let '(mw1, err) :=
            writeFormField mw (fieldName fieldType)
              (reflect.Value_String field) in
          Checked mw1 err
    | reflect.Int | reflect.Int8 | reflect.Int16 | reflect.Int32
    | reflect.Int64 =>
        let '(mw1, err) :=
          writeFormField mw (fieldName fieldType)
            (strconv.FormatInt (reflect.Value_Int field)) in
        Checked mw1 err
    | reflect.Uint | reflect.Uint8 | reflect.Uint16 | reflect.Uint32
    | reflect.Uint64 =>
        let '(mw1, err) :=
          writeFormField mw (fieldName fieldType)
            (strconv.FormatUint (reflect.Value_Uint field)) in
        Checked mw1 err
    | reflect.Float32 | reflect.Float64 =>
        let '(mw1, err) :=
          writeFormField mw (fieldName fieldType)
            (FormatFloat (reflect.Value_Float field)) in
        Checked mw1 err
    | reflect.Bool =>
        let '(mw1, err) :=
          writeFormField mw (fieldName fieldType)
            (strconv.FormatBool (reflect.Value_Bool field)) in
        Checked mw1 err
    | reflect.Slice =>
        if reflect.Kind_eqb (reflect.Value_ElemKind field) reflect.Uint8
           && negb (reflect.Value_IsNil field)
        then
          let '(mw1, err) :=
            writeFormFile mw (fieldName fieldType) (fileName fieldType field)
              (reflect.Value_Bytes field) in
          Checked mw1 err
        else if negb (reflect.Value_IsNil field) then
          let '(mw1, err) :=
            encodeElems mw (fieldName fieldType) (reflect.Value_Elems field)
              None in
          Checked mw1 err
        else Checked mw None
    | reflect.Struct =>
        (* field.Interface() panics on a field that is not exported *)
        if reflect.IsExported fieldType then
          let '(jsonData, err) := Marshal field in
          match err with
          | None =>
              let '(mw1, err1) :=
                writeFormField mw (fieldName fieldType) jsonData in
              Checked mw1 err1
          | Some _ => Checked mw err
          end
        else
          FieldPanic
            "reflect.Value.Interface: cannot return value obtained from unexported field or method"
    | _ => Checked mw None
    end.

(** Lines 49-145: the field loop with its error check. *)
Fixpoint encodeFields (mw : Writer)
    (fields : list (reflect.StructField * reflect.Value)) : Flow :=
  match fields with
  | [] => Fallthrough mw
  | (fieldType, field) :: rest =>
      match encodeField mw fieldType field with
      | FieldPanic msg => Leave (Panic msg)
      | Checked mw1 (Some err) => Leave (Return None "" (Some err))
      | Checked mw1 None => encodeFields mw1 rest
      end
  end.

Definition Encode (req : reflect.Value) : Result :=
  let mw := NewWriter in
  let v := req in
  let v :=
    if reflect.Kind_eqb (reflect.Value_Kind v) reflect.Pointer
    then reflect.Value_Elem v else v in
  if negb (reflect.Kind_eqb (reflect.Value_Kind v) reflect.Struct) then
    Return None "" (Some (errorString "req must be a struct"))
  else
    match encodeFields mw (reflect.Value_Fields v) with
    | Leave r => r
    | Fallthrough mw1 =>
        let '(mw2, err) := Close mw1 in
        match err with
        | Some e =>
            Return None ""
              (Some (Errorf_w "failed to close multipart writer " e))
        | None => Return (Some (w mw2)) (FormDataContentType mw2) None
        end
    end.

End Encoder.

(** [reflect.Indirect(v)]: the value [v] points to (the zero Value for a nil
    pointer), and [v] itself when it is not a pointer.  [Encode] spells this
    out at lines 40-42. *)
Definition Indirect (v : reflect.Value) : reflect.Value :=
  match v with
  | reflect.VPointer _ => reflect.Value_Elem v
  | _ => v
  end.

(** The parts of the buffer that a call hands to its caller: [None] when it
    returns an error (and so a nil buffer) or panics. *)
Definition output (r : Result) : option (list Part) :=
  match r with
  | Return (Some buf) _ None => Some (parts buf)
  | _ => None
  end.

(** A writer none of whose parts holds a sticky write error. *)
Definition healthy (mw : Writer) : Prop :=
  match lastpart mw with
  | Some p => we p = None
  | None => True
  end.

(** The body [encodeElems] gives the form field of a slice element: its
    string form for the three kinds of the inner switch (lines 119-126),
    the empty string for any other kind. *)
Definition elemText (elem : reflect.Value) : string :=
  match elem with
  | reflect.VString s => s
  | reflect.VInt _ i => strconv.FormatInt i
  | reflect.VUint _ u => strconv.FormatUint u
  | _ => ""
  end.

(** The elements the inner switch has a case for. *)
Definition stringable (elem : reflect.Value) : bool :=
  match elem with
  | reflect.VString _ | reflect.VInt _ _ | reflect.VUint _ _ => true
  | _ => false
  end.

Definition formField (name value : string) : Part :=
  {| part_name := name; part_filename := None; part_body := value |}.

Definition formFile (name filename data : string) : Part :=
  {| part_name := name; part_filename := Some filename; part_body := data |}.

(** [mw1] is [mw] with the parts [ps] added, and still healthy. *)
Definition appends (mw mw1 : Writer) (ps : list Part) : Prop :=
  healthy mw1 /\ parts (w mw1) = (parts (w mw) ++ ps)%list.

(** From any healthy writer the field loop over [fields] falls through,
    having added the parts [ps]. *)
Definition yields {H : Host}
    (fields : list (reflect.StructField * reflect.Value)) (ps : list Part)
  : Prop :=
  forall mw, healthy mw ->
    exists mw1, encodeFields mw fields = Fallthrough mw1 /\ appends mw mw1 ps.

(** The host [H] with another sniffer and another MIME registry. *)
Definition withSniffer (H : Host) (detect : string -> string)
    (exts : string -> list string * option error) : Host :=
  {| randomBoundary := @randomBoundary H;
     write_fault := @write_fault H;
     DetectContentType := detect;
     ExtensionsByType := exts;
     Marshal := @Marshal H;
     FormatFloat := @FormatFloat H;
     ToLower := @ToLower H |}.

(** [strconv.ParseUint(s, 10, 64)] without its bound, to say what
    [FormatUint] produces. *)
Definition ParseUint (s : string) : option N :=
  option_map N.of_uint (NilZero.uint_of_string s).

(** A part that the step of the field [(ft, f)] may add: it carries the name
    of the field, which is not the skip sentinel, and a filename only when
    the field is a non-nil byte slice, and then the one of lines 100-107. *)
Definition partOf {H : Host} (ft : reflect.StructField) (f : reflect.Value)
    (p : Part) : Prop :=
  part_name p = fieldName ft /\
  fieldName ft <> "-" /\
  (part_filename p = None \/
   (part_filename p = Some (fileName ft f) /\
    reflect.Value_Kind f = reflect.Slice /\
    reflect.Value_ElemKind f = reflect.Uint8 /\
    reflect.Value_IsNil f = false)).

(** The fields for which line 102 is reached: written, non-nil byte slices
    without a [filename] tag. *)
Definition consultsSniffer {H : Host} (ft : reflect.StructField)
    (f : reflect.Value) : bool :=
  negb (fieldName ft =? "-")%string
  && reflect.Kind_eqb (reflect.Value_Kind f) reflect.Slice
  && reflect.Kind_eqb (reflect.Value_ElemKind f) reflect.Uint8
  && negb (reflect.Value_IsNil f)
  && (reflect.Get (reflect.Tag ft) "filename" =? "")%string.

(** The non-nil byte slices, which line 99 sends as files. *)
Definition isUpload (f : reflect.Value) : bool :=
  reflect.Kind_eqb (reflect.Value_Kind f) reflect.Slice
  && reflect.Kind_eqb (reflect.Value_ElemKind f) reflect.Uint8
  && negb (reflect.Value_IsNil f).

(** The field descriptor [ft] with the pair [key:"value"] put in front of
    its tag. *)
Definition addTag (key value : string) (ft : reflect.StructField)
  : reflect.StructField :=
  {| reflect.Name := reflect.Name ft;
     reflect.PkgPath := reflect.PkgPath ft;
     reflect.Tag := (key, value) :: reflect.Tag ft |}.

(** ** Hosts and records for the examples *)

Module Examples.

Definition bytes (l : list N) : string :=
  string_of_list_ascii (map ascii_of_N l).

Definition byteSlice (l : list N) : reflect.Value :=
  reflect.VSlice reflect.Uint8
    (Some (map (fun b => reflect.VUint reflect.KUint8 b) l)).

Definition lower (c : ascii) : ascii :=
  let n := nat_of_ascii c in
  if (65 <=? n)%nat && (n <=? 90)%nat then ascii_of_nat (n + 32) else c.

(** [strings.ToLower] on ASCII text. *)
Fixpoint asciiToLower (s : string) : string :=
  match s with
  | EmptyString => EmptyString
  | String c rest => String (lower c) (asciiToLower rest)
  end.

(** The bytes [http.DetectContentType] counts as binary data. *)
Definition isBinary (c : ascii) : bool :=
  let n := nat_of_ascii c in
  (n <=? 8)%nat || (n =? 11)%nat || ((14 <=? n)%nat && (n <=? 26)%nat)
  || ((28 <=? n)%nat && (n <=? 31)%nat).

Definition hasBinary (s : string) : bool :=
  existsb isBinary (list_ascii_of_string s).

(** An excerpt of the signature table of [http.DetectContentType]: the four
    formats named in the README, then plain text, then the fallback. *)
Definition sniff (data : string) : string :=
  if prefix (bytes [0x89; 0x50; 0x4E; 0x47; 0x0D; 0x0A; 0x1A; 0x0A]%N) data
  then "image/png"
  else if prefix (bytes [0xFF; 0xD8; 0xFF]%N) data then "image/jpeg"
  else if prefix "GIF87a" data || prefix "GIF89a" data then "image/gif"
  else if prefix "%PDF-" data then "application/pdf"
  else if negb (hasBinary data) then "text/plain; charset=utf-8"
  else "application/octet-stream".

(** The media type without its parameters. *)
Fixpoint justType (t : string) : string :=
  match t with
  | EmptyString => EmptyString
  | String c rest =>
      if (c =? ";")%char then EmptyString else String c (justType rest)
  end.

Definition Registry : Type := list (string * list string).

Fixpoint lookup (r : Registry) (t : string) : list string :=
  match r with
  | [] => []
  | (k, exts) :: rest => if (k =? t)%string then exts else lookup rest t
  end.

Definition extensionsIn (r : Registry) (t : string)
  : list string * option error :=
  (lookup r (justType t), None).

(** A registry that knows the common web types and nothing else: it has no
    entry for application/octet-stream and none for text/plain.  The
    extensions of a type come sorted, as [mime.ExtensionsByType] returns
    them. *)
Definition webTypes : Registry :=
  [ ("image/avif", [".avif"]); ("text/css", [".css"]);
    ("image/gif", [".gif"]); ("text/html", [".htm"; ".html"]);
    ("image/jpeg", [".jpeg"; ".jpg"]);
    ("text/javascript", [".js"; ".mjs"]); ("application/json", [".json"]);
    ("application/pdf", [".pdf"]); ("image/png", [".png"]);
    ("image/svg+xml", [".svg"]); ("application/wasm", [".wasm"]);
    ("image/webp", [".webp"]); ("text/xml", [".xml"]) ].

(** The registry of a host with an [/etc/mime.types], for the types used
    here: image/jpeg comes with four spellings, of which ".jfif" sorts
    first, and application/octet-stream with ".bin". *)
Definition mimeTypesFile : Registry :=
  [ ("application/octet-stream", [".bin"]);
    ("image/jpeg", [".jfif"; ".jpe"; ".jpeg"; ".jpg"]);
    ("image/gif", [".gif"]); ("image/png", [".png"]);
    ("application/pdf", [".pdf"]) ].

(** A registry that lists ".jpe" first for image/jpeg. *)
Definition jpeFirst : Registry :=
  [ ("image/jpeg", [".jpe"; ".jpeg"; ".jpg"]) ].

Definition chanField (fv : reflect.StructField * reflect.Value) : bool :=
  match snd fv with
  | reflect.VOpaque reflect.KChan => true
  | _ => false
  end.

(** Characters a JSON string holds as they are: printable ASCII other than
    the quote, the backslash and the three that [json.Marshal] escapes for
    HTML. *)
Definition plainChar (c : ascii) : bool :=
  let n := nat_of_ascii c in
  (32 <=? n)%nat && (n <=? 126)%nat
  && negb ((n =? 34)%nat || (n =? 92)%nat || (n =? 60)%nat || (n =? 62)%nat
           || (n =? 38)%nat).

Definition quote : string := String (ascii_of_nat 34) EmptyString.

Definition jsonValue (v : reflect.Value) : option string :=
  match v with
  | reflect.VString s =>
      if forallb plainChar (list_ascii_of_string s)
      then Some (quote ++ s ++ quote) else None
  | reflect.VInt _ i => Some (strconv.FormatInt i)
  | reflect.VUint _ u => Some (strconv.FormatUint u)
  | reflect.VBool b => Some (strconv.FormatBool b)
  | _ => None
  end.

Fixpoint jsonMembers (fields : list (reflect.StructField * reflect.Value))
  : option (list string) :=
  match fields with
  | [] => Some []
  | (ft, f) :: rest =>
      match jsonValue f, jsonMembers rest with
      | Some v, Some ms =>
          Some (if reflect.IsExported ft
                then (quote ++ reflect.Name ft ++ quote ++ ":" ++ v) :: ms
                else ms)
      | _, _ => None
      end
  end.

(** [json.Marshal] on the shapes the examples use: a struct without [json]
    tags whose fields are plain text, integers and booleans, and a struct
    with a channel field, which it rejects.  Other values are not covered
    and are reported as such. *)
Definition marshal (v : reflect.Value) : string * option error :=
  match v with
  | reflect.VStruct fields =>
      if existsb chanField fields
      then ("", Some (errorString "json: unsupported type: chan int"))
      else
        match jsonMembers fields with
        | Some ms => ("{" ++ String.concat "," ms ++ "}", None)
        | None =>
            ("", Some (errorString "json: value not covered by the example"))
        end
  | _ => ("", Some (errorString "json: value not covered by the example"))
  end.

(** No example formats a float other than zero. *)
Definition host (faults : nat -> option error) (r : Registry) : Host :=
  {| randomBoundary := "c0ffee";
     write_fault := faults;
     DetectContentType := sniff;
     ExtensionsByType := extensionsIn r;
     Marshal := marshal;
     FormatFloat := fun _ => "0";
     ToLower := asciiToLower |}.

Definition noFault : nat -> option error := fun _ => None.

Definition plainHost : Host := host noFault webTypes.
Definition mimeTypesHost : Host := host noFault mimeTypesFile.
Definition jpeFirstHost : Host := host noFault jpeFirst.

Definition exported (name : string) (tag : reflect.StructTag)
  : reflect.StructField :=
  {| reflect.Name := name; reflect.PkgPath := ""; reflect.Tag := tag |}.

Definition jpegData : list N :=
  [0xFF; 0xD8; 0xFF; 0xE0; 0x00; 0x10; 0x4A; 0x46]%N.

(** [[]byte(s)] *)
Definition bytesOf (s : string) : reflect.Value :=
  reflect.VSlice reflect.Uint8
    (Some (map (fun c => reflect.VUint reflect.KUint8 (N_of_ascii c))
             (list_ascii_of_string s))).

(** The request of the test in the README. *)
Definition testRequest : reflect.Value :=
  reflect.VStruct
    [ (exported "Name" [("form", "name")], reflect.VString "John Doe");
      (exported "Email" [], reflect.VString "john@example.com");
      (exported "Age" [("form", "user_age")], reflect.VInt reflect.KInt 30);
      (exported "IsActive" [], reflect.VBool true);
      (exported "IgnoreField" [("form", "-")],
       reflect.VString "This should be ignored");
      (exported "ProfilePic" [("form", "avatar"); ("filename", "profile.jpg")],
       bytesOf "fake image data");
      (exported "Tags" [],
       reflect.VSlice reflect.String
         (Some [reflect.VString "golang"; reflect.VString "multipart"]));
      (exported "Numbers" [],
       reflect.VSlice reflect.Int
         (Some [reflect.VInt reflect.KInt 1; reflect.VInt reflect.KInt 2;
                reflect.VInt reflect.KInt 3]));
      (exported "UserInfo" [],
       reflect.VStruct
         [ (exported "Address" [], reflect.VString "123 Main St");
           (exported "Phone" [], reflect.VString "555-1234") ]) ].

End Examples.

(** ** The writer on a destination without faults *)

Section Reliable.
Context {H : Host}.
Hypothesis no_fault : reliable H.

Lemma append_body_last (ps : list Part) (p : Part) (d : string) :
  append_body (ps ++ [p])%list d =
  (ps ++ [{| part_name := part_name p; part_filename := part_filename p;
             part_body := part_body p ++ d |}])%list.
Proof.
  induction ps as [|q ps IH]; simpl; [reflexivity|].
  rewrite IH. destruct (ps ++ [p])%list eqn:E; [|reflexivity].
  destruct ps; discriminate.
Qed.

Lemma Buffer_Write_reliable (b : Buffer) (c : chunk) :
  Buffer_Write b c = (Buffer_store b c, None).
Proof. unfold Buffer_Write. now rewrite no_fault. Qed.

Lemma CreatePart_reliable (mw : Writer) (name : string)
    (filename : option string) :
  healthy mw ->
  exists mw1,
    CreatePart mw name filename = (mw1, None) /\
    lastpart mw1 = Some {| closed := false; we := None |} /\
    parts (w mw1) =
      (parts (w mw) ++ [{| part_name := name; part_filename := filename;
                           part_body := "" |}])%list.
Proof.
  unfold healthy, CreatePart. intros Hh.
  destruct (lastpart mw) as [[c e]|] eqn:E; simpl in *.
  - subst e. rewrite Buffer_Write_reliable. eexists; repeat split.
  - rewrite E, Buffer_Write_reliable. eexists; repeat split.
Qed.

Lemma part_Write_reliable (mw : Writer) (d : string) :
  lastpart mw = Some {| closed := false; we := None |} ->
  exists mw1,
    part_Write mw d = (mw1, None) /\
    healthy mw1 /\
    parts (w mw1) = append_body (parts (w mw)) d.
Proof.
  unfold part_Write. intros ->. rewrite Buffer_Write_reliable.
  eexists; repeat split.
Qed.

Lemma writePart_reliable (mw : Writer) (name : string)
    (filename : option string) (d : string) :
  healthy mw ->
  exists mw1,
    (let '(mw0, err) := CreatePart mw name filename in
     match err with
     | None => part_Write mw0 d
     | Some _ => (mw0, err)
     end) = (mw1, None) /\
    healthy mw1 /\
    parts (w mw1) =
      (parts (w mw) ++ [{| part_name := name; part_filename := filename;
                           part_body := d |}])%list.
Proof.
  intros Hh.
  destruct (CreatePart_reliable mw name filename Hh) as (mw0 & -> & Hl & Hp).
  destruct (part_Write_reliable mw0 d Hl) as (mw1 & -> & Hh1 & Hp1).
  exists mw1. repeat split; [assumption|].
  rewrite Hp1, Hp, append_body_last. reflexivity.
Qed.

Lemma writeFormField_reliable (mw : Writer) (name value : string) :
  healthy mw ->
  exists mw1,
    writeFormField mw name value = (mw1, None) /\
    healthy mw1 /\
    parts (w mw1) = (parts (w mw) ++ [formField name value])%list.
Proof. apply writePart_reliable. Qed.

Lemma writeFormFile_reliable (mw : Writer) (name filename data : string) :
  healthy mw ->
  exists mw1,
    writeFormFile mw name filename data = (mw1, None) /\
    healthy mw1 /\
    parts (w mw1) = (parts (w mw) ++ [formFile name filename data])%list.
Proof. apply writePart_reliable. Qed.

Lemma encodeElems_reliable (name : string) (elems : list reflect.Value) :
  forall (mw : Writer) (err : option error),
  healthy mw ->
  exists mw1,
    encodeElems mw name elems err =
      (mw1, match elems with [] => err | _ :: _ => None end) /\
    appends mw mw1 (map (fun elem => formField name (elemText elem)) elems).
Proof.
  induction elems as [|elem rest IH]; intros mw err Hh; simpl.
  - exists mw. split; [reflexivity|]. split; [assumption|].
    now rewrite app_nil_r.
  - unfold CreateFormField.
    destruct (CreatePart_reliable mw name None Hh) as (mw0 & -> & Hl & Hp).
    assert (Hstep : exists mw2,
      match reflect.Value_Kind elem with
      | reflect.String => part_Write mw0 (reflect.Value_String elem)
      | reflect.Int | reflect.Int8 | reflect.Int16 | reflect.Int32
      | reflect.Int64 =>
          part_Write mw0 (strconv.FormatInt (reflect.Value_Int elem))
      | reflect.Uint | reflect.Uint8 | reflect.Uint16 | reflect.Uint32
      | reflect.Uint64 =>
          part_Write mw0 (strconv.FormatUint (reflect.Value_Uint elem))
      | _ => (mw0, None)
      end = (mw2, None) /\
      appends mw mw2 [formField name (elemText elem)]).
    { assert (Hw : forall d, exists mw2, part_Write mw0 d = (mw2, None) /\
                     appends mw mw2 [formField name d]).
      { intros d.
        destruct (part_Write_reliable mw0 d Hl) as (mw2 & -> & Hh2 & Hp2).
        exists mw2. split; [reflexivity|]. split; [assumption|].
        rewrite Hp2, Hp, append_body_last. reflexivity. }
      assert (Hn : appends mw mw0 [formField name ""]).
      { split; [|exact Hp]. unfold healthy. now rewrite Hl. }
      destruct elem as [|b|k i|k u|k x|s|ek d|ek d|fs|t|k]; simpl;
        try (exists mw0; split; [reflexivity|exact Hn]);
        try apply Hw;
        destruct k; simpl;
        try (exists mw0; split; [reflexivity|exact Hn]); apply Hw. }
    destruct Hstep as (mw2 & -> & Hh2 & Hp2).
    destruct (IH mw2 None Hh2) as (mw3 & E3 & Hh3 & Hp3).
    exists mw3. split.
    + rewrite E3. now destruct rest.
    + split; [assumption|]. rewrite Hp3, Hp2, <- app_assoc. reflexivity.
Qed.

End Reliable.

(** ** The field loop *)

Section FieldLoop.
Context {H : Host}.

Lemma encodeFields_app (fs1 fs2 : list (reflect.StructField * reflect.Value)) :
  forall mw,
  encodeFields mw (fs1 ++ fs2) =
  match encodeFields mw fs1 with
  | Fallthrough mw1 => encodeFields mw1 fs2
  | Leave r => Leave r
  end.
Proof.
  induction fs1 as [|[ft f] fs1 IH]; intros mw; simpl; [reflexivity|].
  destruct (encodeField mw ft f) as [mw1 [e|]|msg]; auto.
Qed.

Lemma healthy_NewWriter : healthy NewWriter.
Proof. exact I. Qed.

Lemma yields_nil : yields [] [].
Proof.
  intros mw Hh. exists mw. split; [reflexivity|]. split; [assumption|].
  now rewrite app_nil_r.
Qed.

Lemma yields_app fs1 fs2 ps1 ps2 :
  yields fs1 ps1 -> yields fs2 ps2 -> yields (fs1 ++ fs2) (ps1 ++ ps2).
Proof.
  intros Y1 Y2 mw Hh.
  destruct (Y1 mw Hh) as (mw1 & E1 & Hh1 & Hp1).
  destruct (Y2 mw1 Hh1) as (mw2 & E2 & Hh2 & Hp2).
  exists mw2. rewrite encodeFields_app, E1. split; [assumption|].
  split; [assumption|]. rewrite Hp2, Hp1, <- app_assoc. reflexivity.
Qed.

(** A field whose step adds [ps] from any healthy writer. *)
Lemma yields_field ft f ps :
  (forall mw, healthy mw ->
     exists mw1, encodeField mw ft f = Checked mw1 None /\ appends mw mw1 ps) ->
  yields [(ft, f)] ps.
Proof.
  intros Hf mw Hh. destruct (Hf mw Hh) as (mw1 & E & Ha).
  exists mw1. simpl. now rewrite E.
Qed.

Section NoFault.
Hypothesis no_fault : reliable H.

Lemma Close_reliable (mw : Writer) :
  healthy mw ->
  exists mw1, Close mw = (mw1, None) /\ parts (w mw1) = parts (w mw) /\
              boundary mw1 = boundary mw.
Proof.
  unfold healthy, Close. intros Hh.
  destruct (lastpart mw) as [[c e]|]; simpl in *.
  - subst e. rewrite (Buffer_Write_reliable no_fault). eexists; repeat split.
  - rewrite (Buffer_Write_reliable no_fault). eexists; repeat split.
Qed.

(** Every field either adds the same parts from every healthy writer, or
    makes [Encode] leave with the same error or panic from every writer. *)
Lemma encodeField_cases ft f :
  (exists ps, forall mw, healthy mw ->
     exists mw1, encodeField mw ft f = Checked mw1 None /\ appends mw mw1 ps)
  \/
  (exists r, output r = None /\
     forall mw rest, encodeFields mw ((ft, f) :: rest) = Leave r).
Proof.
  assert (Hskip : forall ps : list Part, ps = [] ->
            forall mw, healthy mw ->
            exists mw1, Checked mw None = Checked mw1 None /\ appends mw mw1 ps).
  { intros ps -> mw Hh. exists mw. split; [reflexivity|].
    split; [assumption|]. now rewrite app_nil_r. }
  assert (Hfield : forall name value mw, healthy mw ->
            exists mw1,
              (let '(mw1, err) := writeFormField mw name value in
               Checked mw1 err) = Checked mw1 None /\
              appends mw mw1 [formField name value]).
  { intros name value mw Hh.
    destruct (writeFormField_reliable no_fault mw name value Hh)
      as (mw1 & -> & Ha). now exists mw1. }
  unfold encodeFields, encodeField.
  destruct (fieldName ft =? "-")%string.
  { left. exists []. now apply Hskip. }
  destruct f as [|b|k i|k u|k x|s|ek d|ek d|fs|t|k]; simpl.
  - left. exists []. now apply Hskip.
  - left. eexists. apply Hfield.
  - left. eexists. destruct k; simpl; apply Hfield.
  - left. eexists. destruct k; simpl; apply Hfield.
  - left. eexists. destruct k; simpl; apply Hfield.
  - destruct (s =? "")%string.
    + left. exists []. now apply Hskip.
    + left. eexists. apply Hfield.
  - destruct d as [elems|]; simpl.
    + destruct (reflect.Kind_eqb ek reflect.Uint8); simpl.
      * left. eexists. intros mw Hh.
        destruct (writeFormFile_reliable no_fault mw (fieldName ft)
                    (fileName ft (reflect.VSlice ek (Some elems)))
                    (reflect.Value_Bytes (reflect.VSlice ek (Some elems))) Hh)
          as (mw1 & -> & Ha). exists mw1. split; [reflexivity|exact Ha].
      * left. eexists. intros mw Hh.
        destruct (encodeElems_reliable no_fault (fieldName ft) elems mw None Hh)
          as (mw1 & -> & Ha). exists mw1. split; [|exact Ha].
        now destruct elems.
    + rewrite andb_false_r. left. exists []. now apply Hskip.
  - left. exists []. now apply Hskip.
  - destruct (reflect.IsExported ft).
    + destruct (Marshal (reflect.VStruct fs)) as [jsonData [e|]].
      * right. eexists. split; [|intros mw rest; reflexivity]. reflexivity.
      * left. eexists. apply Hfield.
    + right. eexists. split; [|intros mw rest; reflexivity]. reflexivity.
  - left. exists []. now apply Hskip.
  - left. exists []. destruct k; now apply Hskip.
Qed.

Lemma encodeFields_cases fs :
  (exists ps, yields fs ps) \/
  (exists r, output r = None /\
     forall mw, healthy mw -> encodeFields mw fs = Leave r).
Proof.
  induction fs as [|[ft f] fs IH].
  - left. exists []. apply yields_nil.
  - destruct (encodeField_cases ft f) as [(ps & Hf)|(r & Hr & Hl)].
    + destruct IH as [(ps' & Y)|(r & Hr & Hl)].
      * left. exists (ps ++ ps')%list.
        apply (yields_app [(ft, f)] fs); [now apply yields_field|exact Y].
      * right. exists r. split; [assumption|]. intros mw Hh. simpl.
        destruct (Hf mw Hh) as (mw1 & -> & Hh1 & _). now apply Hl.
    + right. exists r. split; [assumption|]. intros mw _. apply Hl.
Qed.

Lemma yields_output fs ps :
  yields fs ps -> output (Encode (reflect.VStruct fs)) = Some ps.
Proof.
  intros Y. unfold Encode. simpl.
  destruct (Y NewWriter healthy_NewWriter) as (mw1 & -> & Hh1 & Hp1).
  destruct (Close_reliable mw1 Hh1) as (mw2 & -> & Hp2 & _).
  simpl. now rewrite Hp2, Hp1.
Qed.

Lemma output_yields fs ps :
  output (Encode (reflect.VStruct fs)) = Some ps -> yields fs ps.
Proof.
  intros Ho. destruct (encodeFields_cases fs) as [(ps' & Y)|(r & Hr & Hl)].
  - rewrite (yields_output fs ps' Y) in Ho. now inversion Ho; subst.
  - unfold Encode in Ho. simpl in Ho.
    rewrite (Hl NewWriter healthy_NewWriter) in Ho. congruence.
Qed.

(** The parts of a record are those of the fields before a field, then the
    parts of that field, then those of the fields after it. *)
Lemma output_insert fs1 ft f fs2 ps1 ps ps2 :
  output (Encode (reflect.VStruct fs1)) = Some ps1 ->
  yields [(ft, f)] ps ->
  output (Encode (reflect.VStruct fs2)) = Some ps2 ->
  output (Encode (reflect.VStruct (fs1 ++ (ft, f) :: fs2))) =
    Some (ps1 ++ ps ++ ps2)%list.
Proof.
  intros H1 Hf H2. apply yields_output.
  apply yields_app; [now apply output_yields|].
  apply (yields_app [(ft, f)] fs2); [assumption|now apply output_yields].
Qed.

End NoFault.
End FieldLoop.

(** ** The test of the README *)

(** What the test looks for in the body: every field under its name, the
    ignored field absent, the picture under the filename of its tag, one
    part per tag and per number, and the nested struct as JSON. *)
Example Encode_testRequest :
  output (@Encode Examples.plainHost Examples.testRequest) =
  Some [ formField "name" "John Doe";
         formField "email" "john@example.com";
         formField "user_age" "30";
         formField "isactive" "true";
         formFile "avatar" "profile.jpg" "fake image data";
         formField "tags" "golang"; formField "tags" "multipart";
         formField "numbers" "1"; formField "numbers" "2";
         formField "numbers" "3";
         formField "userinfo"
           ("{" ++ Examples.quote ++ "Address" ++ Examples.quote ++ ":"
            ++ Examples.quote ++ "123 Main St" ++ Examples.quote ++ ","
            ++ Examples.quote ++ "Phone" ++ Examples.quote ++ ":"
            ++ Examples.quote ++ "555-1234" ++ Examples.quote ++ "}") ].
Proof. reflexivity. Qed.

(** ** Rejected inputs *)

Lemma Kind_eqb_Struct (v : reflect.Value) :
  reflect.Value_Kind v <> reflect.Struct ->
  reflect.Kind_eqb (reflect.Value_Kind v) reflect.Struct = false.
Proof.
  destruct v as [|b|k i|k u|k x|s|ek d|ek d|fs|t|k]; simpl;
    try reflexivity; try (destruct k; reflexivity).
  intros Hk. now contradiction Hk.
Qed.

Lemma Kind_eqb_Pointer (v : reflect.Value) :
  reflect.Kind_eqb (reflect.Value_Kind v) reflect.Pointer =
  match v with reflect.VPointer _ => true | _ => false end.
Proof.
  destruct v as [|b|k i|k u|k x|s|ek d|ek d|fs|t|k]; simpl;
    try reflexivity; destruct k; reflexivity.
Qed.

(** C1.  Whatever the input, if the value left after following at most one
    pointer is not a struct, [Encode] returns a nil buffer, an empty content
    type and the error "req must be a struct". *)
Theorem Encode_rejects_non_struct {H : Host} (req : reflect.Value) :
  reflect.Value_Kind (Indirect req) <> reflect.Struct ->
  Encode req = Return None "" (Some (errorString "req must be a struct")).
Proof.
  intros Hk. unfold Encode. rewrite Kind_eqb_Pointer.
  replace (if match req with reflect.VPointer _ => true | _ => false end
           then reflect.Value_Elem req else req) with (Indirect req)
    by (now destruct req).
  now rewrite (Kind_eqb_Struct _ Hk).
Qed.

(** A bare number, a map, a nil pointer and a pointer to a pointer to a
    struct are all rejected. *)
Lemma Encode_rejects_non_struct_witness :
  let rejected :=
    Return None "" (Some (errorString "req must be a struct")) in
  @Encode Examples.plainHost (reflect.VInt reflect.KInt 42) = rejected /\
  @Encode Examples.plainHost (reflect.VOpaque reflect.KMap) = rejected /\
  @Encode Examples.plainHost (reflect.VPointer None) = rejected /\
  @Encode Examples.plainHost
    (reflect.VPointer (Some (reflect.VPointer (Some (reflect.VStruct [])))))
    = rejected.
Proof.
  intros rejected. split; [|split; [|split]];
    apply (@Encode_rejects_non_struct Examples.plainHost); discriminate.
Defined.

(** ** Skipped fields *)

Lemma fieldName_skip {H : Host} (ft : reflect.StructField) :
  reflect.Get (reflect.Tag ft) "form" = "-" -> fieldName ft = "-".
Proof. unfold fieldName. now intros ->. Qed.

Lemma encodeFields_drop {H : Host} fs1 ft f fs2 :
  (forall mw, encodeField mw ft f = Checked mw None) ->
  forall mw,
  encodeFields mw (fs1 ++ (ft, f) :: fs2) = encodeFields mw (fs1 ++ fs2).
Proof.
  intros Hf mw. rewrite !encodeFields_app.
  destruct (encodeFields mw fs1) as [mw1|r]; [|reflexivity].
  simpl. now rewrite Hf.
Qed.

Lemma Encode_drop {H : Host} fs1 ft f fs2 :
  (forall mw, encodeField mw ft f = Checked mw None) ->
  Encode (reflect.VStruct (fs1 ++ (ft, f) :: fs2)) =
  Encode (reflect.VStruct (fs1 ++ fs2)) /\
  Encode (reflect.VPointer (Some (reflect.VStruct (fs1 ++ (ft, f) :: fs2)))) =
  Encode (reflect.VPointer (Some (reflect.VStruct (fs1 ++ fs2)))).
Proof.
  intros Hf. unfold Encode. simpl.
  now rewrite (encodeFields_drop fs1 ft f fs2 Hf).
Qed.

(** C3.  A field whose [form] tag is exactly "-" leaves the writer as it
    was and raises no error, whatever its kind and value; the record, passed
    by value or through a pointer, encodes exactly as the record without
    that field. *)
Theorem skip_sentinel_omits_field {H : Host}
    (fs1 fs2 : list (reflect.StructField * reflect.Value))
    (ft : reflect.StructField) (f : reflect.Value) :
  reflect.Get (reflect.Tag ft) "form" = "-" ->
  (forall mw, encodeField mw ft f = Checked mw None) /\
  Encode (reflect.VStruct (fs1 ++ (ft, f) :: fs2)) =
    Encode (reflect.VStruct (fs1 ++ fs2)) /\
  Encode (reflect.VPointer (Some (reflect.VStruct (fs1 ++ (ft, f) :: fs2)))) =
    Encode (reflect.VPointer (Some (reflect.VStruct (fs1 ++ fs2)))).
Proof.
  intros Htag.
  assert (Hf : forall mw, encodeField mw ft f = Checked mw None).
  { intros mw. unfold encodeField. now rewrite (fieldName_skip ft Htag). }
  split; [exact Hf|]. now apply Encode_drop.
Qed.

(** A skipped text field between two fields that are written. *)
Lemma skip_sentinel_omits_field_witness :
  let name := (Examples.exported "Name" [("form", "name")],
               reflect.VString "John Doe") in
  let ignored := (Examples.exported "IgnoreField" [("form", "-")],
                  reflect.VString "This should be ignored") in
  let age := (Examples.exported "Age" [("form", "user_age")],
              reflect.VInt reflect.KInt 30) in
  @Encode Examples.plainHost (reflect.VStruct ([name] ++ ignored :: [age])) =
  @Encode Examples.plainHost (reflect.VStruct ([name] ++ [age])).
Proof.
  intros name ignored age.
  apply (@skip_sentinel_omits_field Examples.plainHost [name] [age]
           (fst ignored) (snd ignored)).
  reflexivity.
Defined.

(** ** Text and integer fields *)

Lemma ParseInt_FormatInt (i : Z) :
  strconv.ParseInt (strconv.FormatInt i) = Some i.
Proof.
  unfold strconv.ParseInt, strconv.FormatInt. rewrite NilZero.isi.
  - simpl. now rewrite DecimalZ.of_to.
  - destruct i; simpl; try discriminate.
    intros [= E]. now apply Unsigned.to_uint_nonnil in E.
  - destruct i; simpl; try discriminate.
    intros [= E]. now apply Unsigned.to_uint_nonnil in E.
Qed.

Lemma fieldName_neqb {H : Host} (ft : reflect.StructField) :
  fieldName ft <> "-" -> (fieldName ft =? "-")%string = false.
Proof. intros Hn. now apply String.eqb_neq. Qed.

Lemma yields_int {H : Host} ft k i :
  reliable H -> fieldName ft <> "-" ->
  yields [(ft, reflect.VInt k i)]
    [formField (fieldName ft) (strconv.FormatInt i)].
Proof.
  intros Hr Hn. apply yields_field. intros mw Hh.
  unfold encodeField. rewrite (fieldName_neqb ft Hn).
  destruct (writeFormField_reliable Hr mw (fieldName ft)
              (strconv.FormatInt i) Hh) as (mw1 & E & Ha).
  exists mw1. split; [|exact Ha].
  destruct k; simpl; now rewrite E.
Qed.

(** C4.  A text field holding the empty string adds nothing: the record
    encodes as the record without it.  A signed-integer field that is
    written (its name is not the skip sentinel), on a destination without
    write faults, adds exactly one form field between the parts of the
    fields before it and those of the fields after it; its body is the
    decimal numeral of the value (it reads back as that value), which for
    zero is "0". *)
Theorem empty_text_omitted_integer_written {H : Host}
    (fs1 fs2 : list (reflect.StructField * reflect.Value))
    (ft : reflect.StructField) (k : reflect.IntKind) (i : Z)
    (ps1 ps2 : list Part) :
  reliable H ->
  fieldName ft <> "-" ->
  output (Encode (reflect.VStruct fs1)) = Some ps1 ->
  output (Encode (reflect.VStruct fs2)) = Some ps2 ->
  Encode (reflect.VStruct (fs1 ++ (ft, reflect.VString "") :: fs2)) =
    Encode (reflect.VStruct (fs1 ++ fs2)) /\
  output (Encode (reflect.VStruct (fs1 ++ (ft, reflect.VInt k i) :: fs2))) =
    Some (ps1 ++ [formField (fieldName ft) (strconv.FormatInt i)] ++ ps2)%list /\
  strconv.ParseInt (strconv.FormatInt i) = Some i /\
  strconv.FormatInt 0 = "0".
Proof.
  intros Hr Hn H1 H2. split; [|split; [|split]].
  - apply Encode_drop. intros mw. unfold encodeField.
    now destruct (fieldName ft =? "-")%string.
  - apply (output_insert Hr); auto. now apply yields_int.
  - apply ParseInt_FormatInt.
  - reflexivity.
Qed.

(** A record with a text field and an integer field, empty and zero. *)
Lemma empty_text_omitted_integer_written_witness :
  let name := (Examples.exported "Name" [("form", "name")],
               reflect.VString "John") in
  let active := (Examples.exported "IsActive" [], reflect.VBool true) in
  let count := Examples.exported "Count" [] in
  @Encode Examples.plainHost
    (reflect.VStruct ([name] ++ (count, reflect.VString "") :: [active])) =
  @Encode Examples.plainHost (reflect.VStruct ([name] ++ [active])) /\
  output (@Encode Examples.plainHost
    (reflect.VStruct
       ([name] ++ (count, reflect.VInt reflect.KInt 0) :: [active]))) =
  Some [formField "name" "John"; formField "count" "0";
        formField "isactive" "true"].
Proof.
  intros name active count.
  pose proof (@empty_text_omitted_integer_written Examples.plainHost
                [name] [active] count reflect.KInt 0%Z
                [formField "name" "John"] [formField "isactive" "true"]
                (fun n => eq_refl)
                ltac:(discriminate) eq_refl eq_refl) as (E1 & E2 & _).
  split; [exact E1|exact E2].
Defined.

(** ** Slices of values *)

Lemma yields_slice {H : Host} ft ek elems :
  reliable H -> fieldName ft <> "-" -> ek <> reflect.Uint8 ->
  yields [(ft, reflect.VSlice ek (Some elems))]
    (map (fun elem => formField (fieldName ft) (elemText elem)) elems).
Proof.
  intros Hr Hn Hek. apply yields_field. intros mw Hh.
  unfold encodeField. rewrite (fieldName_neqb ft Hn). simpl.
  replace (reflect.Kind_eqb ek reflect.Uint8) with false
    by (destruct ek; try reflexivity; now contradiction Hek).
  simpl.
  destruct (encodeElems_reliable Hr (fieldName ft) elems mw None Hh)
    as (mw1 & E & Ha).
  exists mw1. rewrite E. split; [now destruct elems|exact Ha].
Qed.

(** C5, as the code has it.  A non-nil slice field whose elements are
    text, signed integers or unsigned integers other than bytes, written on
    a destination without write faults, adds one form field per element, all
    under the name of the field and in the order of the elements, each
    holding the string form of its element.  An array field adds nothing:
    the record encodes as the record without it. *)
Theorem slice_field_per_element {H : Host}
    (fs1 fs2 : list (reflect.StructField * reflect.Value))
    (ft : reflect.StructField) (ek : reflect.Kind)
    (elems : list reflect.Value) (ps1 ps2 : list Part) :
  reliable H ->
  fieldName ft <> "-" ->
  ek <> reflect.Uint8 ->
  forallb stringable elems = true ->
  output (Encode (reflect.VStruct fs1)) = Some ps1 ->
  output (Encode (reflect.VStruct fs2)) = Some ps2 ->
  output (Encode (reflect.VStruct
            (fs1 ++ (ft, reflect.VSlice ek (Some elems)) :: fs2))) =
    Some (ps1
          ++ map (fun elem => formField (fieldName ft) (elemText elem)) elems
          ++ ps2)%list /\
  Encode (reflect.VStruct (fs1 ++ (ft, reflect.VArray ek elems) :: fs2)) =
    Encode (reflect.VStruct (fs1 ++ fs2)).
Proof.
  intros Hr Hn Hek _ H1 H2. split.
  - apply (output_insert Hr); auto. now apply yields_slice.
  - apply Encode_drop. intros mw. unfold encodeField.
    now destruct (fieldName ft =? "-")%string.
Qed.

(** The [Tags] and [Numbers] fields of the README. *)
Lemma slice_field_per_element_witness :
  let tags := (Examples.exported "Tags" [],
               reflect.VSlice reflect.String
                 (Some [reflect.VString "golang"; reflect.VString "multipart"])) in
  let numbers := (Examples.exported "Numbers" [],
                  reflect.VSlice reflect.Int
                    (Some [reflect.VInt reflect.KInt 1;
                           reflect.VInt reflect.KInt 2])) in
  output (@Encode Examples.plainHost (reflect.VStruct [tags; numbers])) =
  Some [formField "tags" "golang"; formField "tags" "multipart";
        formField "numbers" "1"; formField "numbers" "2"].
Proof.
  intros tags numbers.
  apply (proj1 (@slice_field_per_element Examples.plainHost [] [numbers]
                  (fst tags) reflect.String
                  [reflect.VString "golang"; reflect.VString "multipart"]
                  [] [formField "numbers" "1"; formField "numbers" "2"]
                  (fun n => eq_refl) ltac:(discriminate) ltac:(discriminate)
                  eq_refl eq_refl eq_refl)).
Defined.

(** C5 as stated fails twice: an element of another kind is not skipped but
    written as a form field with an empty body, and an array of text is not
    written element by element but left out. *)
Lemma slice_field_per_element_counterexample :
  let flags := (Examples.exported "Flags" [],
                reflect.VSlice reflect.Bool (Some [reflect.VBool true])) in
  let pair := (Examples.exported "Pair" [],
               reflect.VArray reflect.String
                 [reflect.VString "golang"; reflect.VString "multipart"]) in
  output (@Encode Examples.plainHost (reflect.VStruct [flags])) =
    Some [formField "flags" ""] /\
  output (@Encode Examples.plainHost (reflect.VStruct [flags])) <> Some [] /\
  output (@Encode Examples.plainHost (reflect.VStruct [pair])) = Some [] /\
  output (@Encode Examples.plainHost (reflect.VStruct [pair])) <>
    Some [formField "pair" "golang"; formField "pair" "multipart"].
Proof. repeat split; discriminate. Qed.

(** ** File parts *)

Lemma yields_file {H : Host} ft elems :
  reliable H -> fieldName ft <> "-" ->
  let f := reflect.VSlice reflect.Uint8 (Some elems) in
  yields [(ft, f)]
    [formFile (fieldName ft) (fileName ft f) (reflect.Value_Bytes f)].
Proof.
  intros Hr Hn f. apply yields_field. intros mw Hh.
  unfold encodeField. rewrite (fieldName_neqb ft Hn). simpl.
  destruct (writeFormFile_reliable Hr mw (fieldName ft) (fileName ft f)
              (reflect.Value_Bytes f) Hh) as (mw1 & E & Ha).
  exists mw1. fold f. now rewrite E.
Qed.

Lemma fileName_annotated {H : Host} ft f :
  reflect.Get (reflect.Tag ft) "filename" <> "" ->
  fileName ft f = reflect.Get (reflect.Tag ft) "filename".
Proof.
  intros Hn. unfold fileName.
  now rewrite (proj2 (String.eqb_neq _ _) Hn).
Qed.

Lemma fileName_sniffed {H : Host} ft f :
  reflect.Get (reflect.Tag ft) "filename" = "" ->
  fileName ft f =
  fieldName ft ++ getExtensionFromContent (reflect.Value_Bytes f).
Proof.
  intros Hn. unfold fileName, DefaultFileExtension. rewrite Hn. simpl.
  destruct (getExtensionFromContent (reflect.Value_Bytes f) =? "")%string
    eqn:E; [|reflexivity].
  apply String.eqb_eq in E. now rewrite E.
Qed.

(** C6.  A non-nil byte slice whose field carries a [filename] tag, written
    on a destination without write faults, adds one file part under the
    name of the field whose filename is the tag, as written, and whose body
    is the bytes.  The sniffer has no say in it: with any other sniffer and
    MIME registry the field is encoded in the same way. *)
Theorem annotated_filename_verbatim {H : Host}
    (fs1 fs2 : list (reflect.StructField * reflect.Value))
    (ft : reflect.StructField) (elems : list reflect.Value)
    (ps1 ps2 : list Part) :
  reliable H ->
  fieldName ft <> "-" ->
  reflect.Get (reflect.Tag ft) "filename" <> "" ->
  output (Encode (reflect.VStruct fs1)) = Some ps1 ->
  output (Encode (reflect.VStruct fs2)) = Some ps2 ->
  let f := reflect.VSlice reflect.Uint8 (Some elems) in
  output (Encode (reflect.VStruct (fs1 ++ (ft, f) :: fs2))) =
    Some (ps1
          ++ [formFile (fieldName ft)
                (reflect.Get (reflect.Tag ft) "filename")
                (reflect.Value_Bytes f)]
          ++ ps2)%list /\
  forall detect exts mw,
    @encodeField (withSniffer H detect exts) mw ft f = encodeField mw ft f.
Proof.
  intros Hr Hn Hfn H1 H2 f. split.
  - rewrite <- (fileName_annotated ft f Hfn).
    apply (output_insert Hr); auto. now apply yields_file.
  - intros detect exts mw. unfold encodeField, fileName, fieldName. simpl.
    now rewrite (proj2 (String.eqb_neq _ _) Hfn).
Qed.

(** The [ProfilePic] field of the README's test: JPEG bytes sent as
    [profile.jpg] on a host whose sniffer would have said [.jpeg]. *)
Lemma annotated_filename_verbatim_witness :
  let pic := Examples.exported "ProfilePic"
               [("form", "avatar"); ("filename", "profile.jpg")] in
  output (@Encode Examples.plainHost
            (reflect.VStruct [(pic, Examples.byteSlice Examples.jpegData)])) =
  Some [formFile "avatar" "profile.jpg" (Examples.bytes Examples.jpegData)].
Proof.
  intros pic.
  apply (proj1 (@annotated_filename_verbatim Examples.plainHost [] [] pic
                  (map (fun b => reflect.VUint reflect.KUint8 b)
                     Examples.jpegData)
                  [] [] (fun n => eq_refl) ltac:(discriminate)
                  ltac:(discriminate) eq_refl eq_refl)).
Defined.

(** ** The extension sniffer *)

Lemma getExtensionFromContent_not_jpe {H : Host} (data : string) :
  getExtensionFromContent data <> ".jpe".
Proof.
  unfold getExtensionFromContent.
  destruct (ExtensionsByType (DetectContentType data)) as [[|s0 rest] [e|]];
    try discriminate.
  destruct (s0 =? ".jpe")%string eqn:E; [discriminate|].
  now apply String.eqb_neq.
Qed.

Lemma output_file_sniffed {H : Host} fs1 fs2 ft elems ps1 ps2 ext :
  reliable H ->
  fieldName ft <> "-" ->
  reflect.Get (reflect.Tag ft) "filename" = "" ->
  let f := reflect.VSlice reflect.Uint8 (Some elems) in
  getExtensionFromContent (reflect.Value_Bytes f) = ext ->
  output (Encode (reflect.VStruct fs1)) = Some ps1 ->
  output (Encode (reflect.VStruct fs2)) = Some ps2 ->
  output (Encode (reflect.VStruct (fs1 ++ (ft, f) :: fs2))) =
    Some (ps1
          ++ [formFile (fieldName ft) (fieldName ft ++ ext)
                (reflect.Value_Bytes f)]
          ++ ps2)%list.
Proof.
  intros Hr Hn Hfn f Hext H1 H2.
  rewrite <- Hext, <- (fileName_sniffed ft f Hfn).
  apply (output_insert Hr); auto. now apply yields_file.
Qed.

(** C7, where the code parts from it.  Only ".jpe" is rewritten to ".jpg".
    On a host whose MIME registry lists ".jfif" first for image/jpeg, a
    payload starting FF D8 FF E0 is classified as image/jpeg and the
    extension returned is ".jfif": the byte slice [Pic] without a
    [filename] tag is sent as "pic.jfif", where the README and the test of
    the repository expect ".jpg". *)
Theorem jpeg_extension_not_normalised :
  @DetectContentType Examples.mimeTypesHost
    (Examples.bytes Examples.jpegData) = "image/jpeg" /\
  @getExtensionFromContent Examples.mimeTypesHost
    (Examples.bytes Examples.jpegData) = ".jfif" /\
  output (@Encode Examples.mimeTypesHost
            (reflect.VStruct [(Examples.exported "Pic" [],
                               Examples.byteSlice Examples.jpegData)])) =
  Some [formFile "pic" "pic.jfif" (Examples.bytes Examples.jpegData)].
Proof. split; [|split]; reflexivity. Qed.

(** X22.  Whatever the payload and the host, the sniffer never answers
    ".jpe".  When the first extension the MIME registry lists for the type
    the payload is classified as is ".jpe" or ".jpg", it answers ".jpg",
    and a non-nil byte slice with that content and no [filename] tag,
    written on a destination without write faults, is sent under the
    filename made of the field name and ".jpg". *)
Theorem sniffed_extension_never_jpe {H : Host} :
  (forall data, getExtensionFromContent data <> ".jpe") /\
  (forall data s0 rest,
     ExtensionsByType (DetectContentType data) = (s0 :: rest, None) ->
     s0 = ".jpe" \/ s0 = ".jpg" ->
     getExtensionFromContent data = ".jpg" /\
     forall fs1 fs2 ft elems ps1 ps2,
       reliable H ->
       fieldName ft <> "-" ->
       reflect.Get (reflect.Tag ft) "filename" = "" ->
       let f := reflect.VSlice reflect.Uint8 (Some elems) in
       reflect.Value_Bytes f = data ->
       output (Encode (reflect.VStruct fs1)) = Some ps1 ->
       output (Encode (reflect.VStruct fs2)) = Some ps2 ->
       output (Encode (reflect.VStruct (fs1 ++ (ft, f) :: fs2))) =
         Some (ps1
               ++ [formFile (fieldName ft) (fieldName ft ++ ".jpg") data]
               ++ ps2)%list).
Proof.
  split; [apply getExtensionFromContent_not_jpe|].
  intros data s0 rest Hx Hs0.
  assert (E : getExtensionFromContent data = ".jpg").
  { unfold getExtensionFromContent. rewrite Hx.
    now destruct Hs0 as [-> | ->]. }
  split; [exact E|].
  intros fs1 fs2 ft elems ps1 ps2 Hr Hn Hfn f Hb H1 H2.
  rewrite <- Hb in E |- *. now apply output_file_sniffed.
Qed.

(** JPEG bytes on a host whose registry lists ".jpe" first. *)
Lemma sniffed_extension_never_jpe_witness :
  @getExtensionFromContent Examples.jpeFirstHost
    (Examples.bytes Examples.jpegData) = ".jpg" /\
  output (@Encode Examples.jpeFirstHost
            (reflect.VStruct [(Examples.exported "Pic" [],
                               Examples.byteSlice Examples.jpegData)])) =
  Some [formFile "pic" "pic.jpg" (Examples.bytes Examples.jpegData)].
Proof.
  destruct (proj2 (@sniffed_extension_never_jpe Examples.jpeFirstHost)
              (Examples.bytes Examples.jpegData) ".jpe" [".jpeg"; ".jpg"]
              eq_refl (or_introl eq_refl)) as (E & Hout).
  split; [exact E|].
  apply (Hout [] [] (Examples.exported "Pic" [])
           (map (fun b => reflect.VUint reflect.KUint8 b) Examples.jpegData)
           [] [] (fun n => eq_refl) ltac:(discriminate) eq_refl eq_refl
           eq_refl eq_refl).
Defined.

(** C8, as the code has it.  When the MIME registry of the host lists no
    extension for the type the payload is sniffed as, or the lookup fails,
    the detected extension is empty, and a non-nil byte slice with that
    content and no [filename] tag, written on a destination without write
    faults, is sent under the bare name of the field. *)
Theorem unregistered_type_bare_filename {H : Host} (data : string) :
  snd (ExtensionsByType (DetectContentType data)) <> None \/
  fst (ExtensionsByType (DetectContentType data)) = [] ->
  getExtensionFromContent data = "" /\
  forall fs1 fs2 ft elems ps1 ps2,
    reliable H ->
    fieldName ft <> "-" ->
    reflect.Get (reflect.Tag ft) "filename" = "" ->
    let f := reflect.VSlice reflect.Uint8 (Some elems) in
    reflect.Value_Bytes f = data ->
    output (Encode (reflect.VStruct fs1)) = Some ps1 ->
    output (Encode (reflect.VStruct fs2)) = Some ps2 ->
    output (Encode (reflect.VStruct (fs1 ++ (ft, f) :: fs2))) =
      Some (ps1 ++ [formFile (fieldName ft) (fieldName ft) data] ++ ps2)%list.
Proof.
  intros Hx.
  assert (E : getExtensionFromContent data = "").
  { unfold getExtensionFromContent.
    destruct (ExtensionsByType (DetectContentType data))
      as [[|s0 rest] [e|]]; simpl in Hx; try reflexivity.
    destruct Hx as [Hx|Hx]; [now contradiction Hx|discriminate]. }
  split; [exact E|].
  intros fs1 fs2 ft elems ps1 ps2 Hr Hn Hfn f Hb H1 H2.
  rewrite <- Hb in E |- *.
  replace (fieldName ft) with (fieldName ft ++ "") at 2
    by (clear; induction (fieldName ft) as [|c n IH]; simpl;
        [reflexivity|now rewrite IH]).
  now apply output_file_sniffed.
Qed.

(** Two bytes of binary data on a host whose registry has no entry for
    application/octet-stream. *)
Lemma unregistered_type_bare_filename_witness :
  @getExtensionFromContent Examples.plainHost (Examples.bytes [0; 1]%N) = "" /\
  output (@Encode Examples.plainHost
            (reflect.VStruct [(Examples.exported "File" [],
                               Examples.byteSlice [0; 1]%N)])) =
  Some [formFile "file" "file" (Examples.bytes [0; 1]%N)].
Proof.
  destruct (@unregistered_type_bare_filename Examples.plainHost
              (Examples.bytes [0; 1]%N) (or_intror eq_refl)) as (E & Hout).
  split; [exact E|].
  apply (Hout [] [] (Examples.exported "File" [])
           (map (fun b => reflect.VUint reflect.KUint8 b) [0; 1]%N)
           [] [] (fun n => eq_refl) ltac:(discriminate) eq_refl eq_refl
           eq_refl eq_refl).
Defined.

(** C8 as stated fails on a host whose registry lists ".bin" for
    application/octet-stream, the type unrecognised content is sniffed as:
    two bytes of binary data are detected as ".bin" and the file is named
    with that suffix. *)
Lemma unregistered_type_counterexample :
  @DetectContentType Examples.mimeTypesHost (Examples.bytes [0; 1]%N) =
    "application/octet-stream" /\
  @getExtensionFromContent Examples.mimeTypesHost (Examples.bytes [0; 1]%N) =
    ".bin" /\
  @getExtensionFromContent Examples.mimeTypesHost (Examples.bytes [0; 1]%N) <>
    "" /\
  output (@Encode Examples.mimeTypesHost
            (reflect.VStruct [(Examples.exported "File" [],
                               Examples.byteSlice [0; 1]%N)])) =
  Some [formFile "file" "file.bin" (Examples.bytes [0; 1]%N)].
Proof. repeat split; discriminate. Qed.

(** C9.  A byte slice that is not nil but has no element is still a file
    upload: written on a destination without write faults, it adds one file
    part under the name of the field, with an empty body and the filename
    of any other upload; without a [filename] tag that is the name of the
    field followed by what the sniffer answers for empty content. *)
Theorem empty_byte_slice_is_file {H : Host}
    (fs1 fs2 : list (reflect.StructField * reflect.Value))
    (ft : reflect.StructField) (ps1 ps2 : list Part) :
  reliable H ->
  fieldName ft <> "-" ->
  output (Encode (reflect.VStruct fs1)) = Some ps1 ->
  output (Encode (reflect.VStruct fs2)) = Some ps2 ->
  let f := reflect.VSlice reflect.Uint8 (Some []) in
  output (Encode (reflect.VStruct (fs1 ++ (ft, f) :: fs2))) =
    Some (ps1 ++ [formFile (fieldName ft) (fileName ft f) ""] ++ ps2)%list /\
  (reflect.Get (reflect.Tag ft) "filename" = "" ->
   fileName ft f = fieldName ft ++ getExtensionFromContent "").
Proof.
  intros Hr Hn H1 H2 f. split.
  - apply (output_insert Hr); auto. now apply (yields_file ft []).
  - intros Hfn. now apply (fileName_sniffed ft f).
Qed.

(** An empty upload between two text fields; empty content is sniffed as
    plain text, for which the registry of this host has no extension. *)
Lemma empty_byte_slice_is_file_witness :
  let name := (Examples.exported "Name" [], reflect.VString "John") in
  let file := Examples.exported "File" [] in
  let note := (Examples.exported "Note" [], reflect.VString "hi") in
  output (@Encode Examples.plainHost
            (reflect.VStruct
               ([name] ++ (file, Examples.byteSlice []) :: [note]))) =
  Some [formField "name" "John"; formFile "file" "file" "";
        formField "note" "hi"].
Proof.
  intros name file note.
  apply (proj1 (@empty_byte_slice_is_file Examples.plainHost [name] [note]
                  file [formField "name" "John"] [formField "note" "hi"]
                  (fun n => eq_refl) ltac:(discriminate) eq_refl eq_refl)).
Defined.

(** ** Errors *)

Lemma encodeFields_abort {H : Host} fs1 ft f fs2 mw mw1 mw2 e :
  encodeFields mw fs1 = Fallthrough mw1 ->
  encodeField mw1 ft f = Checked mw2 (Some e) ->
  encodeFields mw (fs1 ++ (ft, f) :: fs2) = Leave (Return None "" (Some e)).
Proof.
  intros E1 E2. rewrite encodeFields_app, E1. simpl. now rewrite E2.
Qed.

(** C10.  When the fields before it were encoded without error and
    [json.Marshal] fails on an exported, written struct field, the step of
    that field leaves the writer as it was, so no form field is created for
    it, and [Encode] returns a nil buffer, an empty content type and the
    error of [json.Marshal] itself, whatever fields follow. *)
Theorem json_failure_aborts {H : Host}
    (fs1 fs2 : list (reflect.StructField * reflect.Value))
    (ft : reflect.StructField) (f : reflect.Value) (mw1 : Writer)
    (jsonData : string) (e : error) :
  encodeFields NewWriter fs1 = Fallthrough mw1 ->
  reflect.Value_Kind f = reflect.Struct ->
  reflect.IsExported ft = true ->
  fieldName ft <> "-" ->
  Marshal f = (jsonData, Some e) ->
  encodeField mw1 ft f = Checked mw1 (Some e) /\
  Encode (reflect.VStruct (fs1 ++ (ft, f) :: fs2)) = Return None "" (Some e).
Proof.
  intros E1 Hk Hx Hn Hm.
  assert (E2 : encodeField mw1 ft f = Checked mw1 (Some e)).
  { unfold encodeField. now rewrite (fieldName_neqb ft Hn), Hk, Hx, Hm. }
  split; [exact E2|].
  unfold Encode. simpl.
  now rewrite (encodeFields_abort fs1 ft f fs2 _ _ _ _ E1 E2).
Qed.

(** A struct with a channel field, which [json.Marshal] rejects, between
    two fields that could have been written. *)
Lemma json_failure_aborts_witness :
  let name := (Examples.exported "Name" [], reflect.VString "John") in
  let info := (Examples.exported "Info" [],
               reflect.VStruct [(Examples.exported "Done" [],
                                 reflect.VOpaque reflect.KChan)]) in
  let age := (Examples.exported "Age" [], reflect.VInt reflect.KInt 30) in
  @Encode Examples.plainHost (reflect.VStruct ([name] ++ info :: [age])) =
  Return None "" (Some (errorString "json: unsupported type: chan int")).
Proof.
  intros name info age.
  apply (proj2 (@json_failure_aborts Examples.plainHost [name] [age]
                  (fst info) (snd info) _ "" _
                  eq_refl eq_refl eq_refl ltac:(discriminate) eq_refl)).
Defined.

(** ** Further properties of the encoder *)

(** X3.  The element loop of lines 115-128 for elements of every kind: on a
    destination without write faults each element of a non-nil slice that
    is not a byte slice gets a form field, whose body is empty when the
    inner switch has no case for the kind of the element. *)
Theorem slice_elements_all_kinds {H : Host}
    (fs1 fs2 : list (reflect.StructField * reflect.Value))
    (ft : reflect.StructField) (ek : reflect.Kind)
    (elems : list reflect.Value) (ps1 ps2 : list Part) :
  reliable H ->
  fieldName ft <> "-" ->
  ek <> reflect.Uint8 ->
  output (Encode (reflect.VStruct fs1)) = Some ps1 ->
  output (Encode (reflect.VStruct fs2)) = Some ps2 ->
  output (Encode (reflect.VStruct
            (fs1 ++ (ft, reflect.VSlice ek (Some elems)) :: fs2))) =
    Some (ps1
          ++ map (fun elem => formField (fieldName ft) (elemText elem)) elems
          ++ ps2)%list /\
  (forall elem, stringable elem = false -> elemText elem = "").
Proof.
  intros Hr Hn Hek H1 H2. split.
  - apply (output_insert Hr); auto. now apply yields_slice.
  - intros elem. now destruct elem.
Qed.

Lemma slice_elements_all_kinds_witness :
  let ratios := (Examples.exported "Ratios" [],
                 reflect.VSlice reflect.Float64
                   (Some [reflect.VFloat reflect.KFloat64 0;
                          reflect.VFloat reflect.KFloat64 0])) in
  output (@Encode Examples.plainHost (reflect.VStruct [ratios])) =
  Some [formField "ratios" ""; formField "ratios" ""].
Proof.
  intros ratios.
  apply (proj1 (@slice_elements_all_kinds Examples.plainHost [] []
                  (fst ratios) reflect.Float64
                  [reflect.VFloat reflect.KFloat64 0;
                   reflect.VFloat reflect.KFloat64 0] [] []
                  (fun n => eq_refl) ltac:(discriminate) ltac:(discriminate)
                  eq_refl eq_refl)).
Defined.

(** X4.  A boolean field that is written, on a destination without write
    faults, adds one form field whose body is "true" or "false". *)
Theorem bool_field_written {H : Host}
    (fs1 fs2 : list (reflect.StructField * reflect.Value))
    (ft : reflect.StructField) (b : bool) (ps1 ps2 : list Part) :
  reliable H ->
  fieldName ft <> "-" ->
  output (Encode (reflect.VStruct fs1)) = Some ps1 ->
  output (Encode (reflect.VStruct fs2)) = Some ps2 ->
  output (Encode (reflect.VStruct (fs1 ++ (ft, reflect.VBool b) :: fs2))) =
    Some (ps1
          ++ [formField (fieldName ft) (if b then "true" else "false")]
          ++ ps2)%list.
Proof.
  intros Hr Hn H1 H2. apply (output_insert Hr); auto.
  apply yields_field. intros mw Hh.
  unfold encodeField. rewrite (fieldName_neqb ft Hn). simpl.
  destruct (writeFormField_reliable Hr mw (fieldName ft)
              (strconv.FormatBool b) Hh) as (mw1 & -> & Ha).
  now exists mw1.
Qed.

Lemma bool_field_written_witness :
  output (@Encode Examples.plainHost
            (reflect.VStruct ([] ++ (Examples.exported "IsActive" [],
                                     reflect.VBool false) :: []))) =
  Some [formField "isactive" "false"].
Proof.
  apply (@bool_field_written Examples.plainHost [] []
           (Examples.exported "IsActive" []) false [] []
           (fun n => eq_refl) ltac:(discriminate) eq_refl eq_refl).
Defined.

(** X5.  An exported struct field that is written and that [json.Marshal]
    accepts adds, on a destination without write faults, one form field
    whose body is the JSON text. *)
Theorem struct_field_json_part {H : Host}
    (fs1 fs2 : list (reflect.StructField * reflect.Value))
    (ft : reflect.StructField)
    (fields : list (reflect.StructField * reflect.Value))
    (jsonData : string) (ps1 ps2 : list Part) :
  reliable H ->
  fieldName ft <> "-" ->
  reflect.IsExported ft = true ->
  Marshal (reflect.VStruct fields) = (jsonData, None) ->
  output (Encode (reflect.VStruct fs1)) = Some ps1 ->
  output (Encode (reflect.VStruct fs2)) = Some ps2 ->
  output (Encode (reflect.VStruct
            (fs1 ++ (ft, reflect.VStruct fields) :: fs2))) =
    Some (ps1 ++ [formField (fieldName ft) jsonData] ++ ps2)%list.
Proof.
  intros Hr Hn Hx Hm H1 H2. apply (output_insert Hr); auto.
  apply yields_field. intros mw Hh.
  unfold encodeField. rewrite (fieldName_neqb ft Hn). simpl.
  rewrite Hx, Hm.
  destruct (writeFormField_reliable Hr mw (fieldName ft) jsonData Hh)
    as (mw1 & -> & Ha).
  now exists mw1.
Qed.

Lemma struct_field_json_part_witness :
  output (@Encode Examples.plainHost
            (reflect.VStruct ([] ++ (Examples.exported "UserInfo" [],
                                     reflect.VStruct []) :: []))) =
  Some [formField "userinfo" "{}"].
Proof.
  apply (@struct_field_json_part Examples.plainHost [] []
           (Examples.exported "UserInfo" []) [] "{}" [] []
           (fun n => eq_refl) ltac:(discriminate) eq_refl eq_refl eq_refl
           eq_refl).
Defined.

(** X6.  A struct field that is not exported and not skipped makes [Encode]
    panic: [field.Interface()] refuses it before [json.Marshal] is
    called. *)
Theorem unexported_struct_field_panics {H : Host}
    (fs1 fs2 : list (reflect.StructField * reflect.Value))
    (ft : reflect.StructField)
    (fields : list (reflect.StructField * reflect.Value)) (mw1 : Writer) :
  encodeFields NewWriter fs1 = Fallthrough mw1 ->
  fieldName ft <> "-" ->
  reflect.IsExported ft = false ->
  exists msg,
    Encode (reflect.VStruct (fs1 ++ (ft, reflect.VStruct fields) :: fs2)) =
    Panic msg.
Proof.
  intros E1 Hn Hx. eexists. unfold Encode. simpl.
  rewrite encodeFields_app, E1. simpl. unfold encodeField.
  rewrite (fieldName_neqb ft Hn). simpl. rewrite Hx. reflexivity.
Qed.

Lemma unexported_struct_field_panics_witness :
  exists msg,
    @Encode Examples.plainHost
      (reflect.VStruct
         ([] ++ ({| reflect.Name := "inner"; reflect.PkgPath := "main";
                    reflect.Tag := [] |}, reflect.VStruct []) :: [])) =
    Panic msg.
Proof.
  apply (@unexported_struct_field_panics Examples.plainHost [] []
           {| reflect.Name := "inner"; reflect.PkgPath := "main";
              reflect.Tag := [] |} [] _ eq_refl ltac:(discriminate) eq_refl).
Defined.

(** X7.  Fields of the kinds the switch has no case for (pointers, maps,
    channels, functions, interfaces, arrays, complex numbers, uintptr) and
    nil slices add nothing and raise no error: the record encodes as the
    record without them. *)
Theorem unsupported_kinds_ignored {H : Host}
    (fs1 fs2 : list (reflect.StructField * reflect.Value))
    (ft : reflect.StructField) (f : reflect.Value) :
  match f with
  | reflect.VPointer _ | reflect.VOpaque _ | reflect.VArray _ _
  | reflect.VSlice _ None => True
  | _ => False
  end ->
  Encode (reflect.VStruct (fs1 ++ (ft, f) :: fs2)) =
  Encode (reflect.VStruct (fs1 ++ fs2)).
Proof.
  intros Hf. apply Encode_drop. intros mw. unfold encodeField.
  destruct (fieldName ft =? "-")%string; [reflexivity|].
  destruct f as [|b|k i|k u|k x|s|ek [d|]|ek d|fs|t|k]; try contradiction;
    simpl; try reflexivity.
  - now rewrite andb_false_r.
  - now destruct k.
Qed.

Lemma unsupported_kinds_ignored_witness :
  let name := (Examples.exported "Name" [], reflect.VString "John") in
  let next := (Examples.exported "Next" [], reflect.VPointer None) in
  @Encode Examples.plainHost (reflect.VStruct ([name] ++ next :: [])) =
  @Encode Examples.plainHost (reflect.VStruct ([name] ++ [])).
Proof.
  intros name next.
  apply (@unsupported_kinds_ignored Examples.plainHost [name] []
           (fst next) (snd next) I).
Defined.

(** ** The content type of a successful call *)

Section Boundary.
Context {H : Host}.

Lemma Buffer_Write_ok (b : Buffer) (c : chunk) :
  forall b1 err, Buffer_Write b c = (b1, err) ->
  err = None -> b1 = Buffer_store b c.
Proof.
  unfold Buffer_Write. intros b1 err.
  destruct (write_fault (writes b)); intros [= <- <-]; [discriminate|auto].
Qed.

Lemma CreatePart_boundary mw name filename :
  boundary (fst (CreatePart mw name filename)) = boundary mw.
Proof.
  unfold CreatePart.
  destruct (lastpart mw) as [[c [e|]]|]; simpl; try reflexivity.
  - now destruct (Buffer_Write (w mw) (PartHeader name filename)) as [b [e|]].
  - destruct (lastpart mw) as [[c [e|]]|]; simpl; try reflexivity;
      now destruct (Buffer_Write (w mw) (PartHeader name filename))
        as [b [e'|]].
Qed.

Lemma part_Write_boundary mw d :
  boundary (fst (part_Write mw d)) = boundary mw.
Proof.
  unfold part_Write.
  destruct (lastpart mw) as [[[|] e]|]; simpl; try reflexivity.
  now destruct (Buffer_Write (w mw) (PartData d)) as [b err].
Qed.

Lemma writePart_boundary mw name filename d :
  boundary (fst (let '(mw0, err) := CreatePart mw name filename in
                 match err with
                 | None => part_Write mw0 d
                 | Some _ => (mw0, err)
                 end)) = boundary mw.
Proof.
  pose proof (CreatePart_boundary mw name filename) as Hc.
  destruct (CreatePart mw name filename) as [mw0 [e|]]; simpl in *;
    [assumption|].
  now rewrite part_Write_boundary.
Qed.

Lemma encodeElems_boundary name elems :
  forall mw err,
  boundary (fst (encodeElems mw name elems err)) = boundary mw.
Proof.
  induction elems as [|elem rest IH]; intros mw err; simpl; [reflexivity|].
  unfold CreateFormField.
  pose proof (CreatePart_boundary mw name None) as Hc.
  destruct (CreatePart mw name None) as [mw0 [e|]]; simpl in Hc.
  - now rewrite IH.
  - assert (Hw : forall d, boundary (fst (part_Write mw0 d)) = boundary mw)
      by (intros d; now rewrite part_Write_boundary).
    destruct (reflect.Value_Kind elem);
      try (rewrite IH; exact Hc);
      match goal with
      | |- context [part_Write mw0 ?d] =>
          specialize (Hw d); destruct (part_Write mw0 d) as [mw2 err2];
          simpl in Hw; now rewrite IH
      end.
Qed.

Lemma encodeField_boundary mw ft f mw1 err :
  encodeField mw ft f = Checked mw1 err -> boundary mw1 = boundary mw.
Proof.
  assert (Hff : forall value mw1 err,
            (let '(mw1, err) := writeFormField mw (fieldName ft) value in
             Checked mw1 err) = Checked mw1 err ->
            boundary mw1 = boundary mw).
  { intros value mw' err'. unfold writeFormField, CreateFormField.
    pose proof (writePart_boundary mw (fieldName ft) None value) as Hb.
    destruct (let '(mw0, err0) := CreatePart mw (fieldName ft) None in
              match err0 with
              | Some _ => (mw0, err0)
              | None => part_Write mw0 value
              end) as [mw2 err2] eqn:E.
    simpl in Hb. intros [= <- <-]. exact Hb. }
  unfold encodeField.
  destruct (fieldName ft =? "-")%string; [now intros [= <- <-]|].
  destruct f as [|b|k i|k u|k x|s|ek d|ek d|fs|t|k]; simpl;
    try (now intros [= <- <-]);
    try (apply Hff);
    try (destruct k; simpl; first [apply Hff | now intros [= <- <-]]).
  - destruct (s =? "")%string; [now intros [= <- <-]|apply Hff].
  - destruct d as [elems|]; simpl.
    + destruct (reflect.Kind_eqb ek reflect.Uint8); simpl.
      * unfold writeFormFile, CreateFormFile.
        pose proof (writePart_boundary mw (fieldName ft)
                      (Some (fileName ft (reflect.VSlice ek (Some elems))))
                      (reflect.Value_Bytes (reflect.VSlice ek (Some elems))))
          as Hb.
        destruct (let '(mw0, err0) :=
                    CreatePart mw (fieldName ft)
                      (Some (fileName ft (reflect.VSlice ek (Some elems)))) in
                  match err0 with
                  | Some _ => (mw0, err0)
                  | None =>
                      part_Write mw0
                        (reflect.Value_Bytes (reflect.VSlice ek (Some elems)))
                  end) as [mw2 err2] eqn:E.
        simpl in Hb. intros [= <- <-]. exact Hb.
      * pose proof (encodeElems_boundary (fieldName ft) elems mw None) as Hb.
        destruct (encodeElems mw (fieldName ft) elems None) as [mw2 err2].
        simpl in Hb. intros [= <- <-]. exact Hb.
    + rewrite andb_false_r. now intros [= <- <-].
  - destruct (reflect.IsExported ft); [|discriminate].
    destruct (Marshal (reflect.VStruct fs)) as [jsonData [e|]];
      [now intros [= <- <-]|apply Hff].
Qed.

Lemma encodeFields_boundary fields :
  forall mw mw1,
  encodeFields mw fields = Fallthrough mw1 -> boundary mw1 = boundary mw.
Proof.
  induction fields as [|[ft f] rest IH]; intros mw mw1; simpl.
  - now intros [= <-].
  - destruct (encodeField mw ft f) as [mw0 [e|]|msg] eqn:E; try discriminate.
    intros E1. rewrite (IH _ _ E1). exact (encodeField_boundary _ _ _ _ _ E).
Qed.

Lemma Close_ok mw mw1 :
  Close mw = (mw1, None) ->
  boundary mw1 = boundary mw /\ terminated (w mw1) = true.
Proof.
  unfold Close.
  assert (Hc : (let '(b, err) := Buffer_Write (w mw) Terminator in
                ({| w := b; boundary := boundary mw; lastpart := None |}, err))
               = (mw1, None) ->
               boundary mw1 = boundary mw /\ terminated (w mw1) = true).
  { destruct (Buffer_Write (w mw) Terminator) as [b err] eqn:E.
    intros [= <- ->]. simpl.
    now rewrite (Buffer_Write_ok _ _ _ _ E eq_refl). }
  destruct (lastpart mw) as [[c [e|]]|]; [discriminate|exact Hc|exact Hc].
Qed.

End Boundary.

(** X9.  Whenever [Encode] hands a buffer to its caller, the closing boundary
    has been written to it, the error is nil and the content type is
    "multipart/form-data; boundary=" followed by the boundary the writer
    drew. *)
Theorem success_content_type {H : Host} (req : reflect.Value) (buf : Buffer)
    (contentType : string) (err : option error) :
  Encode req = Return (Some buf) contentType err ->
  err = None /\
  contentType = "multipart/form-data; boundary=" ++ randomBoundary /\
  terminated buf = true.
Proof.
  unfold Encode. rewrite Kind_eqb_Pointer.
  replace (if match req with reflect.VPointer _ => true | _ => false end
           then reflect.Value_Elem req else req) with (Indirect req)
    by (now destruct req).
  destruct (reflect.Kind_eqb (reflect.Value_Kind (Indirect req))
              reflect.Struct); simpl; [|discriminate].
  destruct (encodeFields NewWriter (reflect.Value_Fields (Indirect req)))
    as [mw1|r] eqn:E1.
  - destruct (Close mw1) as [mw2 [e|]] eqn:E2; [discriminate|].
    intros [= <- <- <-].
    destruct (Close_ok _ _ E2) as (Hb & Ht).
    unfold FormDataContentType.
    rewrite Hb, (encodeFields_boundary _ _ _ E1). auto.
  - intros ->. revert E1. generalize (@NewWriter H).
    induction (reflect.Value_Fields (Indirect req)) as [|[ft f] rest IH];
      intros mw; simpl; [discriminate|].
    destruct (encodeField mw ft f) as [mw0 [e|]|msg]; try discriminate.
    apply IH.
Qed.

Lemma success_content_type_witness :
  exists buf,
    @Encode Examples.plainHost
      (reflect.VStruct [(Examples.exported "Name" [], reflect.VString "x")]) =
    Return (Some buf) "multipart/form-data; boundary=c0ffee" None /\
    terminated buf = true.
Proof.
  eexists. split; [reflexivity|].
  apply (@success_content_type Examples.plainHost
           (reflect.VStruct
              [(Examples.exported "Name" [], reflect.VString "x")])
           _ _ _ eq_refl).
Defined.

(** ** Text, unsigned and floating-point fields *)

Lemma yields_formField {H : Host} ft f value :
  reliable H ->
  (forall mw,
     encodeField mw ft f =
     let '(mw1, err) := writeFormField mw (fieldName ft) value in
     Checked mw1 err) ->
  yields [(ft, f)] [formField (fieldName ft) value].
Proof.
  intros Hr Hstep. apply yields_field. intros mw Hh. rewrite Hstep.
  destruct (writeFormField_reliable Hr mw (fieldName ft) value Hh)
    as (mw1 & -> & Ha).
  now exists mw1.
Qed.

(** X10.  A text field that is written and not empty adds, on a destination
    without write faults, exactly one form field, under the name of the
    field, whose body is the text as it is. *)
Theorem text_field_written {H : Host}
    (fs1 fs2 : list (reflect.StructField * reflect.Value))
    (ft : reflect.StructField) (s : string) (ps1 ps2 : list Part) :
  reliable H ->
  fieldName ft <> "-" ->
  s <> "" ->
  output (Encode (reflect.VStruct fs1)) = Some ps1 ->
  output (Encode (reflect.VStruct fs2)) = Some ps2 ->
  output (Encode (reflect.VStruct (fs1 ++ (ft, reflect.VString s) :: fs2))) =
    Some (ps1 ++ [formField (fieldName ft) s] ++ ps2)%list.
Proof.
  intros Hr Hn Hs H1 H2. apply (output_insert Hr); auto.
  apply (yields_formField ft _ s Hr). intros mw.
  unfold encodeField. rewrite (fieldName_neqb ft Hn). simpl.
  now rewrite (proj2 (String.eqb_neq s "") Hs).
Qed.

Lemma text_field_written_witness :
  output (@Encode Examples.plainHost
            (reflect.VStruct
               ([] ++ (Examples.exported "Email" [],
                       reflect.VString "John <john@example.com>") :: []))) =
  Some [formField "email" "John <john@example.com>"].
Proof.
  apply (@text_field_written Examples.plainHost [] []
           (Examples.exported "Email" []) "John <john@example.com>" [] []
           (fun n => eq_refl) ltac:(discriminate) ltac:(discriminate)
           eq_refl eq_refl).
Defined.

Lemma ParseUint_FormatUint (u : N) :
  ParseUint (strconv.FormatUint u) = Some u.
Proof.
  unfold ParseUint, strconv.FormatUint. rewrite NilZero.usu.
  - simpl. now rewrite DecimalN.Unsigned.of_to.
  - destruct u; simpl; [discriminate|apply Unsigned.to_uint_nonnil].
Qed.

(** X11.  An unsigned-integer field that is written adds, on a destination
    without write faults, exactly one form field whose body is the decimal
    numeral of the value: it reads back as that value, and is "0" for
    zero. *)
Theorem unsigned_field_written {H : Host}
    (fs1 fs2 : list (reflect.StructField * reflect.Value))
    (ft : reflect.StructField) (k : reflect.UintKind) (u : N)
    (ps1 ps2 : list Part) :
  reliable H ->
  fieldName ft <> "-" ->
  output (Encode (reflect.VStruct fs1)) = Some ps1 ->
  output (Encode (reflect.VStruct fs2)) = Some ps2 ->
  output (Encode (reflect.VStruct (fs1 ++ (ft, reflect.VUint k u) :: fs2))) =
    Some (ps1 ++ [formField (fieldName ft) (strconv.FormatUint u)] ++ ps2)%list
  /\ ParseUint (strconv.FormatUint u) = Some u
  /\ strconv.FormatUint 0 = "0".
Proof.
  intros Hr Hn H1 H2. split; [|split; [apply ParseUint_FormatUint|reflexivity]].
  apply (output_insert Hr); auto.
  apply (yields_formField ft _ (strconv.FormatUint u) Hr). intros mw.
  unfold encodeField. rewrite (fieldName_neqb ft Hn). now destruct k.
Qed.

Lemma unsigned_field_written_witness :
  output (@Encode Examples.plainHost
            (reflect.VStruct
               ([] ++ (Examples.exported "Port" [],
                       reflect.VUint reflect.KUint16 8080) :: []))) =
  Some [formField "port" "8080"].
Proof.
  apply (proj1 (@unsigned_field_written Examples.plainHost [] []
                  (Examples.exported "Port" []) reflect.KUint16 8080%N [] []
                  (fun n => eq_refl) ltac:(discriminate) eq_refl eq_refl)).
Defined.

(** X12.  A floating-point field that is written adds, on a destination
    without write faults, exactly one form field; a float32 and a float64
    field holding the same value after widening get the same body, the one
    [strconv.FormatFloat] gives with bit size 64. *)
Theorem float_field_written {H : Host}
    (fs1 fs2 : list (reflect.StructField * reflect.Value))
    (ft : reflect.StructField) (k : reflect.FloatKind) (bits : Z)
    (ps1 ps2 : list Part) :
  reliable H ->
  fieldName ft <> "-" ->
  output (Encode (reflect.VStruct fs1)) = Some ps1 ->
  output (Encode (reflect.VStruct fs2)) = Some ps2 ->
  output (Encode (reflect.VStruct (fs1 ++ (ft, reflect.VFloat k bits) :: fs2))) =
    Some (ps1 ++ [formField (fieldName ft) (FormatFloat bits)] ++ ps2)%list.
Proof.
  intros Hr Hn H1 H2. apply (output_insert Hr); auto.
  apply (yields_formField ft _ (FormatFloat bits) Hr). intros mw.
  unfold encodeField. rewrite (fieldName_neqb ft Hn). now destruct k.
Qed.

Lemma float_field_written_witness :
  output (@Encode Examples.plainHost
            (reflect.VStruct
               ([] ++ (Examples.exported "Ratio" [],
                       reflect.VFloat reflect.KFloat32 0) :: []))) =
  Some [formField "ratio" "0"].
Proof.
  apply (@float_field_written Examples.plainHost [] []
           (Examples.exported "Ratio" []) reflect.KFloat32 0%Z [] []
           (fun n => eq_refl) ltac:(discriminate) eq_refl eq_refl).
Defined.

(** ** What a record as a whole yields *)

Section Whole.
Context {H : Host}.

Lemma Encode_VStruct_Leave fs r :
  encodeFields NewWriter fs = Leave r -> Encode (reflect.VStruct fs) = r.
Proof. intros E. unfold Encode. simpl. now rewrite E. Qed.

(** Either the input is rejected, or it is a struct, possibly behind one
    pointer, and is encoded as that struct. *)
Lemma Encode_cases (req : reflect.Value) :
  (reflect.Value_Kind (Indirect req) <> reflect.Struct /\
   Encode req = Return None "" (Some (errorString "req must be a struct")))
  \/
  (exists fs, Indirect req = reflect.VStruct fs /\
              Encode req = Encode (reflect.VStruct fs)).
Proof.
  destruct (reflect.Value_Kind (Indirect req)) eqn:Ek;
    try (left; split; [discriminate|];
         apply Encode_rejects_non_struct; rewrite Ek; discriminate).
  right.
  destruct req as [|b|k i|k u|k x|s|ek d|ek d|fs|[t|]|k]; simpl in Ek;
    try discriminate; try (now destruct k).
  - now exists fs.
  - destruct t as [|b|k i|k u|k x|s|ek d|ek d|fs|t|k]; simpl in Ek;
      try discriminate; try (now destruct k).
    now exists fs.
Qed.

(** The step of a field never panics unless the field is a struct that is
    written and not exported. *)
Lemma encodeField_panic mw ft f msg :
  encodeField mw ft f = FieldPanic msg ->
  reflect.Value_Kind f = reflect.Struct /\ fieldName ft <> "-" /\
  reflect.IsExported ft = false.
Proof.
  assert (Hff : forall value,
            (let '(mw1, err) := writeFormField mw (fieldName ft) value in
             Checked mw1 err) = FieldPanic msg -> False).
  { intros value.
    now destruct (writeFormField mw (fieldName ft) value) as [mw1 err]. }
  unfold encodeField.
  destruct (fieldName ft =? "-")%string eqn:En; [discriminate|].
  apply String.eqb_neq in En.
  destruct f as [|b|k i|k u|k x|s|ek d|ek d|fs|t|k]; simpl;
    try discriminate;
    try (intros E; now apply Hff in E);
    try (destruct k; simpl; try discriminate; intros E; now apply Hff in E).
  - destruct (s =? "")%string; [discriminate|]. intros E. now apply Hff in E.
  - destruct d as [elems|]; simpl.
    + destruct (reflect.Kind_eqb ek reflect.Uint8); simpl.
      * now destruct (writeFormFile mw (fieldName ft)
                        (fileName ft (reflect.VSlice ek (Some elems)))
                        (reflect.Value_Bytes (reflect.VSlice ek (Some elems)))).
      * now destruct (encodeElems mw (fieldName ft) elems None).
    + now rewrite andb_false_r.
  - destruct (reflect.IsExported ft); [|auto].
    destruct (Marshal (reflect.VStruct fs)) as [jsonData [e|]];
      [discriminate|].
    intros E. now apply Hff in E.
Qed.

Lemma encodeFields_panic fs :
  forall mw msg,
  encodeFields mw fs = Leave (Panic msg) ->
  exists ft f,
    In (ft, f) fs /\ reflect.Value_Kind f = reflect.Struct /\
    fieldName ft <> "-" /\ reflect.IsExported ft = false.
Proof.
  induction fs as [|[ft f] rest IH]; intros mw msg; simpl; [discriminate|].
  destruct (encodeField mw ft f) as [mw1 [e|]|m] eqn:E.
  - discriminate.
  - intros E1. destruct (IH _ _ E1) as (ft' & f' & Hin & Hk).
    exists ft', f'. auto.
  - intros _. exists ft, f. split; [now left|].
    exact (encodeField_panic _ _ _ _ E).
Qed.

Section NoFault.
Hypothesis no_fault : reliable H.

(** What the step of one field does from a healthy writer: it adds parts of
    that field, or stops on the error of [json.Marshal], or panics. *)
Lemma encodeField_inv mw ft f :
  healthy mw ->
  match encodeField mw ft f with
  | Checked mw1 None =>
      healthy mw1 /\
      exists ps, parts (w mw1) = (parts (w mw) ++ ps)%list /\
                 Forall (partOf ft f) ps
  | Checked _ (Some e) =>
      reflect.Value_Kind f = reflect.Struct /\ fieldName ft <> "-" /\
      reflect.IsExported ft = true /\
      exists jsonData, Marshal f = (jsonData, Some e)
  | FieldPanic _ => True
  end.
Proof.
  intros Hh.
  assert (Hnone : healthy mw /\
            exists ps, parts (w mw) = (parts (w mw) ++ ps)%list /\
                       Forall (partOf ft f) ps).
  { split; [assumption|]. exists []. now rewrite app_nil_r. }
  unfold encodeField.
  destruct (fieldName ft =? "-")%string eqn:En; [exact Hnone|].
  apply String.eqb_neq in En.
  assert (Hff : forall value,
            match (let '(mw1, err) :=
                     writeFormField mw (fieldName ft) value in
                   Checked mw1 err) with
            | Checked mw1 None =>
                healthy mw1 /\
                exists ps, parts (w mw1) = (parts (w mw) ++ ps)%list /\
                           Forall (partOf ft f) ps
            | Checked _ (Some e) => False
            | FieldPanic _ => True
            end).
  { intros value.
    destruct (writeFormField_reliable no_fault mw (fieldName ft) value Hh)
      as (mw1 & -> & Hh1 & Hp).
    split; [assumption|]. eexists. split; [exact Hp|].
    constructor; [|constructor]. repeat split; auto. }
  assert (Hff' : forall value,
            match (let '(mw1, err) :=
                     writeFormField mw (fieldName ft) value in
                   Checked mw1 err) with
            | Checked mw1 None =>
                healthy mw1 /\
                exists ps, parts (w mw1) = (parts (w mw) ++ ps)%list /\
                           Forall (partOf ft f) ps
            | Checked _ (Some e) =>
                reflect.Value_Kind f = reflect.Struct /\
                fieldName ft <> "-" /\ reflect.IsExported ft = true /\
                exists jsonData, Marshal f = (jsonData, Some e)
            | FieldPanic _ => True
            end).
  { intros value. specialize (Hff value).
    destruct (let '(mw1, err) := writeFormField mw (fieldName ft) value in
              Checked mw1 err) as [mw1 [e|]|msg]; [contradiction|auto|auto]. }
  destruct f as [|b|k i|k u|k x|s|ek d|ek d|fs|t|k]; simpl;
    try exact Hnone; try apply Hff';
    try (destruct k; simpl; first [apply Hff' | exact Hnone]).
  - destruct (s =? "")%string; [exact Hnone|apply Hff'].
  - destruct d as [elems|]; simpl.
    + destruct (reflect.Kind_eqb ek reflect.Uint8) eqn:Ek; simpl.
      * destruct (writeFormFile_reliable no_fault mw (fieldName ft)
                    (fileName ft (reflect.VSlice ek (Some elems)))
                    (reflect.Value_Bytes (reflect.VSlice ek (Some elems))) Hh)
          as (mw1 & -> & Hh1 & Hp).
        split; [assumption|]. eexists. split; [exact Hp|].
        constructor; [|constructor]. split; [reflexivity|]. split; [auto|].
        right. repeat split. now destruct ek.
      * destruct (encodeElems_reliable no_fault (fieldName ft) elems mw None
                    Hh) as (mw1 & E & Hh1 & Hp).
        rewrite E.
        replace (match elems with [] => None | _ :: _ => None end)
          with (@None error) by (now destruct elems).
        split; [assumption|]. eexists. split; [exact Hp|].
        apply Forall_forall. intros p Hin. apply in_map_iff in Hin.
        destruct Hin as (elem & <- & _). repeat split; auto.
    + rewrite andb_false_r. exact Hnone.
  - destruct (reflect.IsExported ft) eqn:Ex; [|exact I].
    destruct (Marshal (reflect.VStruct fs)) as [jsonData [e|]] eqn:Em.
    + repeat split; auto. now exists jsonData.
    + specialize (Hff jsonData).
      destruct (let '(mw1, err) :=
                  writeFormField mw (fieldName ft) jsonData in
                Checked mw1 err) as [mw1 [e|]|msg];
        [contradiction|exact Hff|exact I].
Qed.

(** The written struct fields of a record that [json.Marshal] must accept
    for the record to be encoded. *)
Lemma encodeFields_inv fs :
  forall mw, healthy mw ->
  match encodeFields mw fs with
  | Fallthrough mw1 =>
      healthy mw1 /\
      (forall ft f, In (ft, f) fs ->
         reflect.Value_Kind f = reflect.Struct -> fieldName ft <> "-" ->
         reflect.IsExported ft = true /\ snd (Marshal f) = None) /\
      exists ps, parts (w mw1) = (parts (w mw) ++ ps)%list /\
                 Forall (fun p => exists ft f, In (ft, f) fs /\ partOf ft f p)
                   ps
  | Leave (Return buf contentType err) =>
      buf = None /\ contentType = "" /\
      exists ft f jsonData e,
        err = Some e /\ In (ft, f) fs /\
        reflect.Value_Kind f = reflect.Struct /\ fieldName ft <> "-" /\
        reflect.IsExported ft = true /\ Marshal f = (jsonData, Some e)
  | Leave (Panic _) => True
  end.
Proof.
  induction fs as [|[ft f] rest IH]; intros mw Hh; simpl.
  - split; [assumption|]. split; [intros ft f []|].
    exists []. now rewrite app_nil_r.
  - pose proof (encodeField_inv mw ft f Hh) as Hf.
    destruct (encodeField mw ft f) as [mw1 [e|]|msg] eqn:Ef.
    + destruct Hf as (Hk & Hn & Hx & js & Hm). repeat split.
      exists ft, f, js, e. repeat split; auto.
    + destruct Hf as (Hh1 & ps & Hp & Hall).
      specialize (IH mw1 Hh1).
      destruct (encodeFields mw1 rest) as [mw2|[buf ct err|msg]].
      * destruct IH as (Hh2 & Hstruct & ps' & Hp' & Hall').
        split; [assumption|]. split.
        { intros ft' f' [[= <- <-]|Hin] Hk Hn; [|now apply Hstruct].
          revert Ef. unfold encodeField.
          rewrite (fieldName_neqb ft Hn), Hk.
          destruct (reflect.IsExported ft); [|discriminate].
          destruct (Marshal f) as [js [e|]]; [discriminate|auto]. }
        exists (ps ++ ps')%list. split.
        { now rewrite Hp', Hp, <- app_assoc. }
        apply Forall_app. split.
        { eapply Forall_impl; [|exact Hall]. intros p Hp0.
          exists ft, f. split; [now left|assumption]. }
        { eapply Forall_impl; [|exact Hall']. intros p (ft' & f' & Hin & Hq).
          exists ft', f'. split; [now right|assumption]. }
      * destruct IH
          as (-> & -> & ft' & f' & js & e & -> & Hin & Hk & Hn & Hx & Hm).
        repeat split. exists ft', f', js, e. repeat split; auto.
      * exact I.
    + exact I.
Qed.

Lemma Encode_VStruct_Fallthrough fs mw1 :
  healthy mw1 ->
  encodeFields NewWriter fs = Fallthrough mw1 ->
  exists buf,
    Encode (reflect.VStruct fs) =
      Return (Some buf) (FormDataContentType mw1) None /\
    parts buf = parts (w mw1).
Proof.
  intros Hh E. unfold Encode. simpl. rewrite E.
  destruct (Close_reliable no_fault mw1 Hh) as (mw2 & -> & Hp & Hb).
  exists (w mw2). unfold FormDataContentType. now rewrite Hb.
Qed.

End NoFault.
End Whole.

(** X13.  On a destination without write faults the parts of a record are
    the parts of its first fields followed by the parts of its remaining
    fields, in the order the fields are declared; the record is encoded
    exactly when both halves are. *)
Theorem output_concatenates {H : Host}
    (fs1 fs2 : list (reflect.StructField * reflect.Value)) :
  reliable H ->
  output (Encode (reflect.VStruct (fs1 ++ fs2))) =
  match output (Encode (reflect.VStruct fs1)),
        output (Encode (reflect.VStruct fs2)) with
  | Some ps1, Some ps2 => Some (ps1 ++ ps2)%list
  | _, _ => None
  end.
Proof.
  intros Hr.
  destruct (encodeFields_cases Hr fs1) as [(ps1 & Y1)|(r1 & Hr1 & Hl1)].
  - rewrite (yields_output Hr fs1 ps1 Y1).
    destruct (encodeFields_cases Hr fs2) as [(ps2 & Y2)|(r2 & Hr2 & Hl2)].
    + rewrite (yields_output Hr fs2 ps2 Y2).
      apply (yields_output Hr). now apply yields_app.
    + rewrite (Encode_VStruct_Leave fs2 r2 (Hl2 _ healthy_NewWriter)), Hr2.
      destruct (Y1 NewWriter healthy_NewWriter) as (mw1 & E1 & Hh1 & _).
      rewrite (Encode_VStruct_Leave (fs1 ++ fs2) r2); [assumption|].
      rewrite encodeFields_app, E1. now apply Hl2.
  - rewrite (Encode_VStruct_Leave fs1 r1 (Hl1 _ healthy_NewWriter)), Hr1.
    rewrite (Encode_VStruct_Leave (fs1 ++ fs2) r1); [assumption|].
    rewrite encodeFields_app. now rewrite (Hl1 _ healthy_NewWriter).
Qed.

Lemma output_concatenates_witness :
  let name := (Examples.exported "Name" [], reflect.VString "John") in
  let tags := (Examples.exported "Tags" [],
               reflect.VSlice reflect.String
                 (Some [reflect.VString "a"; reflect.VString "b"])) in
  let age := (Examples.exported "Age" [], reflect.VInt reflect.KInt 30) in
  output (@Encode Examples.plainHost
            (reflect.VStruct ([name; tags] ++ [age]))) =
  Some [formField "name" "John"; formField "tags" "a"; formField "tags" "b";
        formField "age" "30"].
Proof.
  intros name tags age.
  apply (@output_concatenates Examples.plainHost [name; tags] [age]
           (fun n => eq_refl)).
Defined.

(** X14.  On a destination without write faults [Encode] returns an error
    in two cases only: the input is not a struct, and the error is "req must
    be a struct"; or [json.Marshal] failed on a written, exported struct
    field, and the error is the one it gave.  In both the buffer is nil and
    the content type empty. *)
Theorem Encode_error_cases {H : Host} (req : reflect.Value)
    (buf : option Buffer) (contentType : string) (e : error) :
  reliable H ->
  Encode req = Return buf contentType (Some e) ->
  buf = None /\ contentType = "" /\
  ((reflect.Value_Kind (Indirect req) <> reflect.Struct /\
    e = errorString "req must be a struct") \/
   (exists ft f jsonData,
      In (ft, f) (reflect.Value_Fields (Indirect req)) /\
      reflect.Value_Kind f = reflect.Struct /\ fieldName ft <> "-" /\
      reflect.IsExported ft = true /\ Marshal f = (jsonData, Some e))).
Proof.
  intros Hr HE.
  destruct (Encode_cases req) as [(Hk & E)|(fs & Hi & E)]; rewrite E in HE.
  - injection HE as <- <- <-. auto.
  - rewrite Hi. simpl.
    pose proof (encodeFields_inv Hr fs NewWriter healthy_NewWriter) as Hinv.
    destruct (encodeFields NewWriter fs) as [mw1|r] eqn:Ef.
    + destruct Hinv as (Hh1 & _).
      destruct (Encode_VStruct_Fallthrough Hr fs mw1 Hh1 Ef) as (b & Eb & _).
      congruence.
    + rewrite (Encode_VStruct_Leave fs r Ef) in HE. subst r.
      destruct Hinv as (-> & -> & ft & f & js & e' & [= <-] & Hin & Hrest).
      split; [reflexivity|]. split; [reflexivity|]. right.
      exists ft, f, js. auto.
Qed.

Lemma Encode_error_cases_witness :
  exists ft f jsonData,
    In (ft, f)
      [(Examples.exported "Info" [],
        reflect.VStruct [(Examples.exported "Done" [],
                          reflect.VOpaque reflect.KChan)])] /\
    reflect.Value_Kind f = reflect.Struct /\
    @Marshal Examples.plainHost f =
      (jsonData, Some (errorString "json: unsupported type: chan int")).
Proof.
  destruct (@Encode_error_cases Examples.plainHost
              (reflect.VPointer (Some (reflect.VStruct
                 [(Examples.exported "Info" [],
                   reflect.VStruct [(Examples.exported "Done" [],
                                     reflect.VOpaque reflect.KChan)])])))
              None ""
              (errorString "json: unsupported type: chan int")
              (fun n => eq_refl) eq_refl)
    as (_ & _ & [(Hk & _)|(ft & f & js & Hin & Hk & _ & _ & Hm)]).
  - exfalso. apply Hk. reflexivity.
  - exists ft, f, js. auto.
Defined.

(** X15.  On a destination without write faults a struct is encoded, with
    a buffer and no error, exactly when every struct field of it that is
    written is exported and accepted by [json.Marshal]; a record without
    struct fields is always encoded. *)
Theorem Encode_succeeds_iff {H : Host}
    (fs : list (reflect.StructField * reflect.Value)) :
  reliable H ->
  (exists ps, output (Encode (reflect.VStruct fs)) = Some ps) <->
  (forall ft f, In (ft, f) fs ->
     reflect.Value_Kind f = reflect.Struct -> fieldName ft <> "-" ->
     reflect.IsExported ft = true /\ snd (Marshal f) = None).
Proof.
  intros Hr.
  pose proof (encodeFields_inv Hr fs NewWriter healthy_NewWriter) as Hinv.
  destruct (encodeFields NewWriter fs) as [mw1|[buf ct err|msg]] eqn:Ef.
  - destruct Hinv as (Hh1 & Hstruct & _). split; [intros _; exact Hstruct|].
    intros _.
    destruct (Encode_VStruct_Fallthrough Hr fs mw1 Hh1 Ef) as (b & Eb & _).
    exists (parts b). now rewrite Eb.
  - rewrite (Encode_VStruct_Leave fs _ Ef).
    destruct Hinv
      as (-> & -> & ft & f & js & e & -> & Hin & Hk & Hn & Hx & Hm).
    split; [intros (ps & Hps); discriminate|].
    intros Hall. destruct (Hall ft f Hin Hk Hn) as (_ & Hs).
    rewrite Hm in Hs. discriminate.
  - rewrite (Encode_VStruct_Leave fs _ Ef).
    split; [intros (ps & Hps); discriminate|].
    intros Hall.
    destruct (encodeFields_panic fs _ _ Ef) as (ft & f & Hin & Hk & Hn & Hx).
    destruct (Hall ft f Hin Hk Hn) as (Hx' & _). congruence.
Qed.

Lemma Encode_succeeds_iff_witness :
  exists ps,
    output (@Encode Examples.plainHost
              (reflect.VStruct
                 [(Examples.exported "Name" [], reflect.VString "John");
                  (Examples.exported "Info" [], reflect.VStruct [])])) =
    Some ps.
Proof.
  apply (proj2 (@Encode_succeeds_iff Examples.plainHost
                  [(Examples.exported "Name" [], reflect.VString "John");
                   (Examples.exported "Info" [], reflect.VStruct [])]
                  (fun n => eq_refl))).
  intros ft f [[= <- <-]|[[= <- <-]|[]]] Hk Hn; [discriminate|].
  split; reflexivity.
Defined.

(** X17.  On a destination without write faults every part of the body of
    an encoded struct comes from one of its fields: it carries the name of
    a field that is written, so never the skip sentinel, and it has a
    filename only when that field is a non-nil byte slice, the filename
    being the one chosen for that field. *)
Theorem parts_come_from_fields {H : Host} (req : reflect.Value)
    (ps : list Part) :
  reliable H ->
  output (Encode req) = Some ps ->
  Forall (fun p =>
            exists ft f,
              In (ft, f) (reflect.Value_Fields (Indirect req)) /\
              partOf ft f p) ps.
Proof.
  intros Hr Ho.
  destruct (Encode_cases req) as [(Hk & E)|(fs & Hi & E)]; rewrite E in Ho;
    [discriminate|].
  rewrite Hi. simpl.
  pose proof (encodeFields_inv Hr fs NewWriter healthy_NewWriter) as Hinv.
  destruct (encodeFields NewWriter fs) as [mw1|r] eqn:Ef.
  - destruct Hinv as (Hh1 & _ & ps' & Hp & Hall).
    destruct (Encode_VStruct_Fallthrough Hr fs mw1 Hh1 Ef) as (b & Eb & Hb).
    rewrite Eb in Ho. simpl in Ho, Hp. injection Ho as <-.
    now rewrite Hb, Hp.
  - rewrite (Encode_VStruct_Leave fs r Ef) in Ho.
    destruct r as [buf ct err|msg]; [|discriminate].
    destruct Hinv as (-> & _). discriminate.
Qed.

Lemma parts_come_from_fields_witness :
  let fields :=
    [ (Examples.exported "Name" [("form", "name")], reflect.VString "John");
      (Examples.exported "IgnoreField" [("form", "-")], reflect.VString "x");
      (Examples.exported "ProfilePic"
         [("form", "avatar"); ("filename", "profile.jpg")],
       Examples.bytesOf "fake") ] in
  Forall (fun p =>
            exists ft f,
              In (ft, f) fields /\ @partOf Examples.plainHost ft f p)
    [formField "name" "John"; formFile "avatar" "profile.jpg" "fake"].
Proof.
  intros fields.
  refine (@parts_come_from_fields Examples.plainHost
            (reflect.VStruct fields)
            [formField "name" "John"; formFile "avatar" "profile.jpg" "fake"]
            (fun n => eq_refl) _).
  vm_compute. reflexivity.
Defined.

(** ** Tags that do not matter *)

Lemma encodeFields_congr {H : Host} fs1 fs2 ft f ft' f' :
  (forall mw, encodeField mw ft f = encodeField mw ft' f') ->
  Encode (reflect.VStruct (fs1 ++ (ft, f) :: fs2)) =
  Encode (reflect.VStruct (fs1 ++ (ft', f') :: fs2)).
Proof.
  intros Hf. unfold Encode. simpl. rewrite !encodeFields_app.
  destruct (encodeFields NewWriter fs1) as [mw1|r]; [|reflexivity].
  simpl. now rewrite Hf.
Qed.

(** X19.  The [filename] tag is read for non-nil byte slices only: on a
    field of any other kind, and on a nil byte slice, adding the tag
    changes nothing in what [Encode] returns. *)
Theorem filename_tag_ignored_elsewhere {H : Host}
    (fs1 fs2 : list (reflect.StructField * reflect.Value))
    (ft : reflect.StructField) (f : reflect.Value) (filename : string) :
  isUpload f = false ->
  Encode (reflect.VStruct (fs1 ++ (addTag "filename" filename ft, f) :: fs2)) =
  Encode (reflect.VStruct (fs1 ++ (ft, f) :: fs2)).
Proof.
  intros Hup. apply encodeFields_congr. intros mw. unfold encodeField.
  change (fieldName (addTag "filename" filename ft)) with (fieldName ft).
  change (reflect.IsExported (addTag "filename" filename ft))
    with (reflect.IsExported ft).
  destruct (fieldName ft =? "-")%string; [reflexivity|].
  destruct f as [|b|k i|k u|k x|s|ek d|ek d|fs|t|k]; try reflexivity.
  unfold isUpload in Hup. simpl in *. now rewrite Hup.
Qed.

Lemma filename_tag_ignored_elsewhere_witness :
  let name := Examples.exported "Name" [("form", "name")] in
  @Encode Examples.plainHost
    (reflect.VStruct
       ([] ++ (addTag "filename" "name.txt" name, reflect.VString "John")
           :: [])) =
  @Encode Examples.plainHost
    (reflect.VStruct ([] ++ (name, reflect.VString "John") :: [])).
Proof.
  intros name.
  apply (@filename_tag_ignored_elsewhere Examples.plainHost [] [] name
           (reflect.VString "John") "name.txt" eq_refl).
Defined.

Lemma encodeField_withSniffer {H : Host} detect exts ft f :
  consultsSniffer ft f = false ->
  forall mw,
  @encodeField (withSniffer H detect exts) mw ft f = encodeField mw ft f.
Proof.
  intros Hc mw. unfold consultsSniffer in Hc. unfold encodeField.
  change (@fieldName (withSniffer H detect exts) ft) with (fieldName ft).
  destruct (fieldName ft =? "-")%string; [reflexivity|].
  destruct f as [|b|k i|k u|k x|s|ek [elems|]|ek d|fs|t|k]; try reflexivity;
    simpl in *; [|now rewrite !andb_false_r].
  destruct (reflect.Kind_eqb ek reflect.Uint8); [|reflexivity].
  simpl in *. unfold fileName.
  change (@fieldName (withSniffer H detect exts) ft) with (fieldName ft).
  now rewrite Hc.
Qed.

(** X20.  The content sniffer and the MIME registry of the host matter
    only through written, non-nil byte slices without a [filename] tag: a
    record that has none is encoded in the same way under any sniffer and
    any registry. *)
Theorem sniffer_matters_for_untagged_uploads_only {H : Host}
    (fs : list (reflect.StructField * reflect.Value))
    (detect : string -> string)
    (exts : string -> list string * option error) :
  (forall ft f, In (ft, f) fs -> consultsSniffer ft f = false) ->
  @Encode (withSniffer H detect exts) (reflect.VStruct fs) =
  Encode (reflect.VStruct fs).
Proof.
  intros Hall.
  assert (Hloop : forall mw,
            @encodeFields (withSniffer H detect exts) mw fs =
            encodeFields mw fs).
  { induction fs as [|[ft f] rest IH]; intros mw; simpl; [reflexivity|].
    rewrite (encodeField_withSniffer detect exts ft f
               (Hall ft f (or_introl eq_refl)) mw).
    destruct (encodeField mw ft f) as [mw1 [e|]|msg]; try reflexivity.
    apply IH. intros ft' f' Hin. apply Hall. now right. }
  unfold Encode. simpl.
  change (@NewWriter (withSniffer H detect exts)) with (@NewWriter H).
  rewrite Hloop. reflexivity.
Qed.

(** A record whose only upload has a [filename] tag, first on a host with
    a registry of web types and then with no sniffer to speak of. *)
Lemma sniffer_matters_for_untagged_uploads_only_witness :
  let fields :=
    [ (Examples.exported "Name" [], reflect.VString "John");
      (Examples.exported "ProfilePic" [("filename", "profile.jpg")],
       Examples.byteSlice Examples.jpegData) ] in
  @Encode (withSniffer Examples.plainHost (fun _ => "")
             (fun _ => ([], None)))
    (reflect.VStruct fields) =
  @Encode Examples.plainHost (reflect.VStruct fields).
Proof.
  intros fields.
  apply (@sniffer_matters_for_untagged_uploads_only Examples.plainHost
           fields (fun _ => "") (fun _ => ([], None))).
  intros ft f [[= <- <-]|[[= <- <-]|[]]]; reflexivity.
Defined.
